(** * Kenya Startup Navigator API: the post-processing heuristics and the
      query handler of [main.py], embedded in Rocq.

    The three heuristics ([generate_follow_ups], [calculate_confidence],
    [generate_sources]) are pure functions over Python [str] values; the
    handler [process_query] is modelled as a function of its environment
    (credential, clock, upstream reply) into an outcome that is either a
    raised [HTTPException] or a returned [QueryResponse]. *)

From Stdlib Require Import Ascii String.
From Stdlib Require Import ZArith NArith PArith List Bool Lia.
From Stdlib Require Import Floats.SpecFloat DecimalString.
Import ListNotations.

Set Implicit Arguments.
Set Warnings "-register-all".

(** ** Python strings

    A Python [str] is a sequence of Unicode code points; [len] counts code
    points, and [in] between two strings is substring search. *)

Definition codepoint := N.
Definition str := list codepoint.

(** A string literal of the source, all of whose characters are ASCII. *)
Definition lit (s : string) : str := map N_of_ascii (list_ascii_of_string s).

Fixpoint starts_with (prefix s : str) : bool :=
  match prefix, s with
  | [], _ => true
  | _ :: _, [] => false
  | a :: prefix', b :: s' => (a =? b)%N && starts_with prefix' s'
  end.

(** [py_in sub s] is Python's [sub in s] on strings. *)
Fixpoint py_in (sub s : str) : bool :=
  starts_with sub s ||
  match s with
  | [] => false
  | _ :: s' => py_in sub s'
  end.

(** [any(p(x) for x in xs)] *)
Definition any {A : Type} (p : A -> bool) (xs : list A) : bool := existsb p xs.

(** [sum(1 for x in xs if p(x))] *)
Definition sum_1_if {A : Type} (p : A -> bool) (xs : list A) : nat :=
  length (filter p xs).

Definition is_ascii (c : codepoint) : bool := (c <? 128)%N.

(** [str.lower] and [str.isdigit] restricted to one ASCII character. *)
Definition ascii_lower (c : codepoint) : codepoint :=
  if ((65 <=? c) && (c <=? 90))%N then (c + 32)%N else c.

Definition ascii_isdigit (c : codepoint) : bool := ((48 <=? c) && (c <=? 57))%N.

(** ** Python floats

    A Python [float] is an IEEE 754 binary64 number; its operations are the
    correctly rounded ones (round to nearest, ties to even) of [SpecFloat]. *)

Module PyFloat.

Definition prec : Z := 53.
Definition emax : Z := 1024.

Definition float := spec_float.

(** An integer read as an unrounded mantissa with exponent 0. *)
Definition exact_int (n : Z) : float :=
  match n with
  | Z0 => S754_zero false
  | Zpos p => S754_finite false p 0
  | Zneg p => S754_finite true p 0
  end.

(** [a / b] on two [int]s: the binary64 nearest to the exact quotient.
    (CPython raises [OverflowError] where this gives an infinity; that needs
    a quotient of 2^1024 or more, which the lengths and counts divided in
    this program never reach.) *)
Definition truediv (a b : Z) : float := SFdiv prec emax (exact_int a) (exact_int b).

Definition add : float -> float -> float := SFadd prec emax.
Definition sub : float -> float -> float := SFsub prec emax.
Definition mul : float -> float -> float := SFmul prec emax.
Definition ltb : float -> float -> bool := SFltb.
Definition leb : float -> float -> bool := SFleb.

(** [min(a, b)]: the builtin keeps its first argument unless a later one
    compares strictly smaller. *)
Definition py_min (a b : float) : float := if ltb b a then b else a.

(** The float literals of the source: each is the binary64 nearest to the
    decimal it is written as. *)
Definition f0_0 : float := S754_zero false.
Definition f1_0 : float := S754_finite false 4503599627370496 (-52).
Definition f0_1 : float := S754_finite false 7205759403792794 (-56).
Definition f0_2 : float := S754_finite false 7205759403792794 (-55).
Definition f0_3 : float := S754_finite false 5404319552844595 (-54).
Definition f0_4 : float := S754_finite false 7205759403792794 (-54).

(** A float that is [+inf] or a positive normal number of value 1 or more. *)
Definition at_least_one (x : float) : Prop :=
  match x with
  | S754_infinity false => True
  | S754_finite false m e => (-52 < e)%Z \/ (e = -52 /\ 2 ^ 52 <= Zpos m)%Z
  | _ => False
  end.

End PyFloat.

(** The Unicode character database belongs to the Python runtime, not to the
    repository: outside ASCII, the lowercase mapping of a character (which
    may be several code points long, and for capital sigma depends on the
    text before and after it) and the digit property are taken as given. *)
Record unicode_data := {
  unicode_lower : str -> codepoint -> str -> str;
  unicode_isdigit : codepoint -> bool
}.

(** A database that leaves every non-ASCII character alone. *)
Definition ascii_only : unicode_data :=
  {| unicode_lower := fun _ c _ => [c]; unicode_isdigit := fun _ => false |}.

Section Heuristics.

Variable U : unicode_data.

(** [lower_from before s]: the lowercase of [s] when the characters in
    [before] (nearest first) precede it. *)
Fixpoint lower_from (before s : str) : str :=
  match s with
  | [] => []
  | c :: after =>
      (if is_ascii c then [ascii_lower c] else unicode_lower U before c after)
        ++ lower_from (c :: before) after
  end.

(** [s.lower()] *)
Definition lower (s : str) : str := lower_from [] s.

(** [c.isdigit()] for a one-character string. *)
Definition isdigit (c : codepoint) : bool :=
  if is_ascii c then ascii_isdigit c else unicode_isdigit U c.

(** *** Follow-up suggester *)

Definition funding_words : list str :=
  [lit "funding"; lit "invest"; lit "money"; lit "capital"; lit "raise"].
Definition legal_words : list str :=
  [lit "legal"; lit "register"; lit "compliance"; lit "law"].
Definition program_words : list str :=
  [lit "accelerator"; lit "incubator"; lit "program"].
Definition market_words : list str :=
  [lit "market"; lit "customer"; lit "competition"].

Definition funding_follow_ups : list str :=
  [lit "What documents do I need to prepare for investor meetings?";
   lit "How long does the fundraising process typically take in Kenya?";
   lit "What valuation should I expect at my current stage?"].
Definition legal_follow_ups : list str :=
  [lit "What are the ongoing compliance requirements after incorporation?";
   lit "How much should I budget for legal and regulatory costs?";
   lit "Which law firms in Kenya specialize in startups?"].
Definition program_follow_ups : list str :=
  [lit "What are the application requirements for top accelerators?";
   lit "When are the next application deadlines?";
   lit "How do I prepare for accelerator interviews?"].
Definition market_follow_ups : list str :=
  [lit "How do I conduct effective market research in Kenya?";
   lit "What are the key customer acquisition channels here?";
   lit "How should I price my product for the Kenyan market?"].
Definition default_follow_ups : list str :=
  [lit "How do I get started in Kenya's startup ecosystem?";
   lit "What funding options are available for early-stage startups?";
   lit "Which accelerators should I consider applying to in Nairobi?"].

Definition generate_follow_ups (question : str) : list str :=
  let question_lower := lower question in
  if any (fun word => py_in word question_lower) funding_words then
    funding_follow_ups
  else if any (fun word => py_in word question_lower) legal_words then
    legal_follow_ups
  else if any (fun word => py_in word question_lower) program_words then
    program_follow_ups
  else if any (fun word => py_in word question_lower) market_words then
    market_follow_ups
  else
    default_follow_ups.

(** The suggester as the specification words it: an ordered list of
    (keywords, follow-up set) rules, the first rule one of whose keywords
    occurs in the lowercased question wins, and a default set otherwise. *)
Definition follow_up_rules : list (list str * list str) :=
  [(funding_words, funding_follow_ups);
   (legal_words, legal_follow_ups);
   (program_words, program_follow_ups);
   (market_words, market_follow_ups)].

Definition category_matches (question_lower : str) (keywords : list str) : bool :=
  existsb (fun word => py_in word question_lower) keywords.

Fixpoint first_matching (rules : list (list str * list str)) (question_lower : str)
  : list str :=
  match rules with
  | [] => default_follow_ups
  | (keywords, set) :: rest =>
      if category_matches question_lower keywords then set
      else first_matching rest question_lower
  end.

(** *** Source attributor *)

Definition base_label : str := lit "Kenya Startup Ecosystem Database".
Definition trailing_label : str := lit "Groq AI Analysis".

(** [if cond: sources.append(label)] *)
Definition append_if (cond : bool) (label : str) (sources : list str) : list str :=
  if cond then sources ++ [label] else sources.

Definition generate_sources (content : str) : list str :=
  let sources := [base_label] in
  let sources := append_if (py_in (lit "tlcom") (lower content))
                           (lit "TLcom Capital") sources in
  let sources := append_if (py_in (lit "novastar") (lower content))
                           (lit "Novastar Ventures") sources in
  let sources := append_if (py_in (lit "ihub") (lower content))
                           (lit "iHub Nairobi") sources in
  let sources := append_if (py_in (lit "mest") (lower content))
                           (lit "MEST Africa") sources in
  let sources := append_if (any (fun term => py_in term (lower content))
                                [lit "cbk"; lit "central bank"])
                           (lit "Central Bank of Kenya") sources in
  let sources := append_if (py_in (lit "kra") (lower content))
                           (lit "Kenya Revenue Authority") sources in
  let sources := sources ++ [trailing_label] in
  firstn 4 sources.

(** *** Confidence estimator *)

Definition kenya_terms : list str :=
  [lit "kenya"; lit "kenyan"; lit "nairobi"; lit "mombasa"; lit "kra"; lit "cbk";
   lit "ihub"; lit "tlcom"; lit "novastar"; lit "mest"; lit "antler";
   lit "shilling"; lit "east africa"; lit "kiico"; lit "ecitizen"].

Definition structure_indicators : list str :=
  [lit "##"; lit "**"; lit "###"; lit "- "; lit "1."; lit "2."; lit "3."].

(** [min(len(content) / 1000, 1.0) * 0.3] *)
Definition length_score (content : str) : PyFloat.float :=
  PyFloat.mul
    (PyFloat.py_min (PyFloat.truediv (Z.of_nat (length content)) 1000) PyFloat.f1_0)
    PyFloat.f0_3.

(** [sum(1 for term in kenya_terms if term.lower() in content.lower())] *)
Definition kenya_mentions (content : str) : nat :=
  sum_1_if (fun term => py_in (lower term) (lower content)) kenya_terms.

(** [min(kenya_mentions / 5, 1.0) * 0.4] *)
Definition kenya_score (content : str) : PyFloat.float :=
  PyFloat.mul
    (PyFloat.py_min (PyFloat.truediv (Z.of_nat (kenya_mentions content)) 5) PyFloat.f1_0)
    PyFloat.f0_4.

(** [sum(1 for indicator in structure_indicators if indicator in content)] *)
Definition structure_count (content : str) : nat :=
  sum_1_if (fun indicator => py_in indicator content) structure_indicators.

(** [min(structure_count / 5, 1.0) * 0.2] *)
Definition structure_score (content : str) : PyFloat.float :=
  PyFloat.mul
    (PyFloat.py_min (PyFloat.truediv (Z.of_nat (structure_count content)) 5) PyFloat.f1_0)
    PyFloat.f0_2.

Definition calculate_confidence (content question : str) : PyFloat.float :=
  match content with
  | [] => PyFloat.f0_0
  | _ :: _ =>
      let score := PyFloat.f0_0 in
      let score := PyFloat.add score (length_score content) in
      let score := PyFloat.add score (kenya_score content) in
      let score := PyFloat.add score (structure_score content) in
      let score := if any isdigit content then PyFloat.add score PyFloat.f0_1
                   else score in
      PyFloat.py_min score PyFloat.f1_0
  end.

End Heuristics.

(** ** The query handler *)

(** Python values, as [response.json()] returns them. *)
Inductive value : Type :=
| VNone
| VBool (b : bool)
| VInt (n : Z)
| VFloat (x : PyFloat.float)
| VStr (s : str)
| VList (items : list value)
| VDict (items : list (str * value)).

(** Exceptions the interpreter raises on a value of the wrong shape. *)
Inductive builtin_error := TypeError | KeyError | IndexError | AttributeError.

Inductive raised :=
| HTTPException (status_code : Z) (detail : str)
| Builtin (e : builtin_error)
| Other (message : str).   (* raised by the HTTP client or the JSON decoder *)

Inductive result (A : Type) : Type :=
| Ok (a : A)
| Raise (e : raised).
Arguments Ok {A} a.
Arguments Raise {A} e.

Definition bind {A B : Type} (m : result A) (k : A -> result B) : result B :=
  match m with
  | Ok a => k a
  | Raise e => Raise e
  end.

Notation "x <- m ;; k" := (bind m (fun x => k))
  (at level 61, m at next level, right associativity).

Definition str_eqb (a b : str) : bool :=
  (length a =? length b)%nat && starts_with a b.

Fixpoint lookup (key : str) (items : list (str * value)) : option value :=
  match items with
  | [] => None
  | (k, v) :: rest => if str_eqb k key then Some v else lookup key rest
  end.

(** [bool(v)] *)
Definition truthy (v : value) : bool :=
  match v with
  | VNone => false
  | VBool b => b
  | VInt n => negb (n =? 0)%Z
  | VFloat (S754_zero _) => false
  | VFloat _ => true
  | VStr s => negb (length s =? 0)%nat
  | VList items => negb (length items =? 0)%nat
  | VDict items => negb (length items =? 0)%nat
  end.

(** [key in v] for a string [key] *)
Definition contains_key (key : str) (v : value) : result bool :=
  match v with
  | VDict items => Ok (match lookup key items with Some _ => true | None => false end)
  | VList items =>
      Ok (existsb (fun x => match x with VStr s => str_eqb s key | _ => false end) items)
  | VStr s => Ok (py_in key s)
  | _ => Raise (Builtin TypeError)
  end.

(** [v[key]] for a string [key] *)
Definition getitem (v : value) (key : str) : result value :=
  match v with
  | VDict items =>
      match lookup key items with
      | Some x => Ok x
      | None => Raise (Builtin KeyError)
      end
  | _ => Raise (Builtin TypeError)
  end.

(** [v[0]]; the keys of a decoded JSON object are strings, never [0]. *)
Definition getitem_0 (v : value) : result value :=
  match v with
  | VList (x :: _) => Ok x
  | VList [] => Raise (Builtin IndexError)
  | VStr (c :: _) => Ok (VStr [c])
  | VStr [] => Raise (Builtin IndexError)
  | VDict _ => Raise (Builtin KeyError)
  | _ => Raise (Builtin TypeError)
  end.

(** [str(n)] for an [int] *)
Definition str_of_int (n : Z) : str := lit (NilZero.string_of_int (Z.to_int n)).

Record QueryRequest := {
  question : str;
  startup_profile : option value;
  context : option str
}.

Record QueryResponse := {
  answer : str;
  confidence : PyFloat.float;
  processing_time : PyFloat.float;
  sources : list str;
  suggested_follow_ups : list str;
  timestamp : str
}.

(** The reply of the completion service: [response.json()] decodes the body
    or raises. *)
Record Response := {
  status_code : Z;
  text : str;
  json : result value
}.

(** What a request reads from outside the program: the credential, the
    clock, the completion service (called with the credential and the user
    prompt; URL, model, system prompt, temperature, token limit and timeout
    are constants of the call), and the runtime's [round(x, 2)], [str(e)]
    and Unicode tables. *)
Record environment := {
  unicode : unicode_data;
  GROQ_API_KEY : option str;
  start_time : PyFloat.float;
  end_time : PyFloat.float;
  now_isoformat : str;
  client_post : str -> str -> result Response;
  round_2 : PyFloat.float -> PyFloat.float;
  error_message : builtin_error -> str
}.

Definition apology : str :=
  lit "I apologize, but I couldn't generate a response. Please try again.".

Definition newline : codepoint := 10%N.

(** [request.question], with the context appended when there is one. *)
Definition user_prompt (request : QueryRequest) : str :=
  match context request with
  | Some (c :: cs) =>
      question request ++ [newline; newline] ++ lit "Additional context: " ++ (c :: cs)
  | _ => question request
  end.

(** The condition ["choices" in data and data["choices"]] *)
Definition has_choices (data : value) : result bool :=
  present <- contains_key (lit "choices") data ;;
  if present then
    choices <- getitem data (lit "choices") ;; Ok (truthy choices)
  else Ok false.

Definition extract_content (data : value) : result value :=
  cond <- has_choices data ;;
  if cond then
    choices <- getitem data (lit "choices") ;;
    first <- getitem_0 choices ;;
    message <- getitem first (lit "message") ;;
    getitem message (lit "content")
  else Ok (VStr apology).

(** A [content] that is not a [str] never gets through the heuristics:
    [len] raises on numbers and booleans, and [.lower()] on everything else
    ([calculate_confidence] returns early on a falsy value, and then
    [generate_sources] raises). *)
Definition heuristics_error (content : value) : builtin_error :=
  if truthy content then
    match content with
    | VList _ | VDict _ => AttributeError
    | _ => TypeError
    end
  else AttributeError.

Definition respond (env : environment) (request : QueryRequest) (content : value)
  : result QueryResponse :=
  match content with
  | VStr s =>
      let processing_time := PyFloat.sub (end_time env) (start_time env) in
      let follow_ups := generate_follow_ups (unicode env) (question request) in
      let confidence := calculate_confidence (unicode env) s (question request) in
      let sources := generate_sources (unicode env) s in
      Ok {| answer := s;
            confidence := confidence;
            processing_time := round_2 env processing_time;
            sources := sources;
            suggested_follow_ups := follow_ups;
            timestamp := now_isoformat env |}
  | _ => Raise (Builtin (heuristics_error content))
  end.

(** The body of the [try] block. *)
Definition process_query_body (env : environment) (request : QueryRequest)
  : result QueryResponse :=
  match GROQ_API_KEY env with
  | None | Some [] =>
      Raise (HTTPException 500 (lit "GROQ_API_KEY environment variable not set"))
  | Some api_key =>
      response <- client_post env api_key (user_prompt request) ;;
      if (status_code response =? 401)%Z then
        Raise (HTTPException 500
                 (lit "Invalid Groq API key. Please check your GROQ_API_KEY."))
      else if (status_code response =? 429)%Z then
        Raise (HTTPException 429
                 (lit "Rate limit exceeded. Please try again in a moment."))
      else if negb (status_code response =? 200)%Z then
        Raise (HTTPException 500
                 (lit "Groq API error: " ++ str_of_int (status_code response)
                    ++ lit " - " ++ text response))
      else
        data <- json response ;;
        content <- extract_content data ;;
        respond env request content
  end.

(** What the caller of the endpoint gets. *)
Inductive outcome :=
| Returned (response : QueryResponse)
| Failed (status_code : Z) (detail : str).

(** [except HTTPException: raise] and [except Exception as e: ...] *)
Definition process_query (env : environment) (request : QueryRequest) : outcome :=
  match process_query_body env request with
  | Ok response => Returned response
  | Raise (HTTPException code detail) => Failed code detail
  | Raise (Builtin e) =>
      Failed 500 (lit "Error processing query: " ++ error_message env e)
  | Raise (Other message) =>
      Failed 500 (lit "Error processing query: " ++ message)
  end.

(** Environments for the examples below: a credential is set, and the
    completion service answers every call with the given reply. *)
Definition env_replying (response : Response) : environment :=
  {| unicode := ascii_only;
     GROQ_API_KEY := Some (lit "gsk_example");
     start_time := PyFloat.f0_0;
     end_time := PyFloat.f0_1;
     now_isoformat := lit "2024-05-01T12:00:00";
     client_post := fun _ _ => Ok response;
     round_2 := fun x => x;
     error_message := fun _ => lit "error" |}.

Definition funding_request : QueryRequest :=
  {| question := lit "How do I raise funding in Nairobi?";
     startup_profile := None;
     context := None |}.

(** A completion of the kind the service returns, for the examples below. *)
Definition sample_answer : str :=
  lit "## Funding in Kenya" ++ [newline]
  ++ lit "Kenya has 4 active venture funds. TLcom Capital writes Series A cheques, Novastar Ventures backs early-stage teams, and the Nairobi Angel Network invests at pre-seed. Register the company on eCitizen, obtain a KRA PIN, and prepare a pitch deck, a financial model and a cap table first.".

(** ** Tables for the confidence score

    Past the literals, the score depends on the text only through its
    length, two counts and one flag; [score_at] is the score as a function
    of these, and [check] goes through the entries the saturating [min]s
    leave. *)

Module Table.
Import PyFloat.

Definition ratio_score (count unit : Z) (weight : float) : float :=
  mul (py_min (truediv count unit) f1_0) weight.

Definition score_at (len mentions markers : Z) (digit : bool) : float :=
  let score := f0_0 in
  let score := add score (ratio_score len 1000 f0_3) in
  let score := add score (ratio_score mentions 5 f0_4) in
  let score := add score (ratio_score markers 5 f0_2) in
  let score := if digit then add score f0_1 else score in
  py_min score f1_0.

(** What is checked of the entry at [(len, mentions, markers, digit)]. *)
Definition entry_ok (len mentions markers : Z) (digit : bool) (r : float) : bool :=
  leb f0_0 r && leb r f1_0 && ltb r f1_0 &&
  (if digit && (267 <=? len)%Z && (1 <=? mentions)%Z && (1 <=? markers)%Z
   then ltb f0_3 r else true).

Definition Zrange (first : nat) (count : nat) : list Z := map Z.of_nat (seq first count).

(** The partial sums, in the order the source adds them. *)
Definition after_length (len : Z) : float := add f0_0 (ratio_score len 1000 f0_3).
Definition after_mentions (score : float) (mentions : Z) : float :=
  add score (ratio_score mentions 5 f0_4).
Definition after_markers (score : float) (markers : Z) : float :=
  add score (ratio_score markers 5 f0_2).
Definition after_digit (score : float) (digit : bool) : float :=
  py_min (if digit then add score f0_1 else score) f1_0.

(** A check of all entries that computes each partial sum once. *)
Section Check.

Variables (S : Type) (s1 : Z -> S) (s2 s3 : S -> Z -> S) (s4 : S -> bool -> S).
Variable ok : Z -> Z -> Z -> bool -> S -> bool.
Variables lens counts : list Z.

Definition check : bool :=
  forallb (fun len =>
    let a := s1 len in
    forallb (fun mentions =>
      let b := s2 a mentions in
      forallb (fun markers =>
        let c := s3 b markers in
        ok len mentions markers false (s4 c false)
        && ok len mentions markers true (s4 c true))
      counts)
    counts)
  lens.

End Check.

End Table.

(** ** Definitions for the further properties *)

(** The organization checklist of the source attributor, as data: the
    keywords of each entry and the label it appends, in the order of the
    source. *)
Definition org_checklist : list (list str * str) :=
  [([lit "tlcom"], lit "TLcom Capital");
   ([lit "novastar"], lit "Novastar Ventures");
   ([lit "ihub"], lit "iHub Nairobi");
   ([lit "mest"], lit "MEST Africa");
   ([lit "cbk"; lit "central bank"], lit "Central Bank of Kenya");
   ([lit "kra"], lit "Kenya Revenue Authority")].

(** The labels of the checklist entries one of whose keywords occurs in the
    lowercased text. *)
Definition matched_labels (U : unicode_data) (content : str) : list str :=
  map snd
    (filter (fun entry => existsb (fun keyword => py_in keyword (lower U content))
                                  (fst entry))
            org_checklist).

(** A result of the HTTP client or of the JSON decoder: a value, or one of
    the library's own exceptions (never the web framework's
    [HTTPException], never an interpreter error of this program). *)
Definition library_result {A : Type} (r : result A) : Prop :=
  match r with
  | Ok _ => True
  | Raise (Other _) => True
  | Raise _ => False
  end.

Definition library_environment (env : environment) : Prop :=
  forall api_key prompt,
    library_result (client_post env api_key prompt)
    /\ forall response, client_post env api_key prompt = Ok response ->
                        library_result (json response).

(** An environment for the examples below in which no credential is set. *)
Definition env_without_key : environment :=
  {| unicode := ascii_only;
     GROQ_API_KEY := None;
     start_time := PyFloat.f0_0;
     end_time := PyFloat.f0_1;
     now_isoformat := lit "2024-05-01T12:00:00";
     client_post := fun _ _ => Raise (Other (lit "unreachable"));
     round_2 := fun x => x;
     error_message := fun _ => lit "error" |}.

(** A well-formed reply of the completion service with one choice. *)
Definition completion_message (content : str) : list (str * value) :=
  [(lit "role", VStr (lit "assistant")); (lit "content", VStr content)].

Definition completion_choice (content : str) : list (str * value) :=
  [(lit "index", VInt 0); (lit "message", VDict (completion_message content))].

Definition completion_items (content : str) : list (str * value) :=
  [(lit "id", VStr (lit "chatcmpl-1"));
   (lit "choices", VList [VDict (completion_choice content)])].

Definition completion_body (content : str) : value :=
  VDict (completion_items content).

(** A result of the interpreter's own operations on values: a value or one
    of its built-in errors. *)
Definition interpreter_result {A : Type} (r : result A) : Prop :=
  match r with
  | Ok _ => True
  | Raise (Builtin _) => True
  | Raise _ => False
  end.

(** A letter of the ASCII alphabet. *)
Definition is_letter (c : codepoint) : bool :=
  (((65 <=? c) && (c <=? 90)) || ((97 <=? c) && (c <=? 122)))%N.

(** A pattern without letters. *)
Definition caseless (pattern : str) : bool :=
  forallb (fun c => negb (is_letter c)) pattern.

(** ** The score grid

    For one length, the scores at every pair of counts, without and with
    the digit bonus; neighbouring entries are compared to show that the
    score never decreases when a feature is added. *)

Module Grid.
Import PyFloat Table.

Definition cell : Type := float * float.

Definition row (score : float) : list cell :=
  map (fun markers =>
         let s3 := after_markers score markers in
         (after_digit s3 false, after_digit s3 true))
      (Zrange 0 6).

Definition grid (len : Z) : list (list cell) :=
  let s1 := after_length len in
  map (fun mentions => row (after_mentions s1 mentions)) (Zrange 0 6).

Definition float_eqb (x y : float) : bool :=
  match x, y with
  | S754_zero s, S754_zero s' => Bool.eqb s s'
  | S754_infinity s, S754_infinity s' => Bool.eqb s s'
  | S754_nan, S754_nan => true
  | S754_finite s m e, S754_finite s' m' e' =>
      Bool.eqb s s' && Pos.eqb m m' && Z.eqb e e'
  | _, _ => false
  end.

Definition cell_le (a b : cell) : bool :=
  leb (fst a) (fst b) && leb (snd a) (snd b).

Definition cell_ok (a : cell) : bool :=
  ltb f0_0 (fst a) && leb (fst a) (snd a).

Fixpoint adjacent {A : Type} (le : A -> A -> bool) (l : list A) : bool :=
  match l with
  | x :: (y :: _) as rest => le x y && adjacent le rest
  | _ => true
  end.

Fixpoint forallb2 {A : Type} (le : A -> A -> bool) (l1 l2 : list A) : bool :=
  match l1, l2 with
  | [], [] => true
  | x :: l1', y :: l2' => le x y && forallb2 le l1' l2'
  | _, _ => false
  end.

Definition row_le : list cell -> list cell -> bool := forallb2 cell_le.
Definition grid_le : list (list cell) -> list (list cell) -> bool := forallb2 row_le.

(** Within one grid: every score is positive, the digit bonus does not
    lower it, and it does not decrease along a row or down a column. *)
Definition grid_ok (g : list (list cell)) : bool :=
  forallb (fun r => forallb cell_ok r && adjacent cell_le r) g
  && adjacent row_le g.

(** The entry with no term, no marker and no digit is the length score
    itself, and that is at most 0.3. *)
Definition plain_ok (len : Z) (g : list (list cell)) : bool :=
  match g with
  | ((a, _) :: _) :: _ =>
      float_eqb a (ratio_score len 1000 f0_3) && leb a f0_3
  | _ => false
  end.

Definition grids_ok (lens : list Z) : bool :=
  let gs := map (fun len => (len, grid len)) lens in
  forallb (fun lg => grid_ok (snd lg) && plain_ok (fst lg) (snd lg)) gs
  && adjacent (fun a b => grid_le (snd a) (snd b)) gs.

End Grid.

(** A float between 0.0 and 1.0. *)
Definition unit_float (x : PyFloat.float) : Prop :=
  PyFloat.leb PyFloat.f0_0 x = true /\ PyFloat.leb x PyFloat.f1_0 = true.

(** * Properties *)

(** ** Substring search and lowercasing *)

Lemma starts_with_app (p r : str) : starts_with p (p ++ r) = true.
Proof.
  induction p as [|a p IH]; simpl; [reflexivity|].
  rewrite N.eqb_refl, IH. reflexivity.
Qed.

Lemma starts_with_inv (p s : str) :
  starts_with p s = true -> exists r, s = p ++ r.
Proof.
  revert s. induction p as [|a p IH]; intros s H.
  - exists s. reflexivity.
  - destruct s as [|b s]; simpl in H; [discriminate|].
    apply andb_true_iff in H. destruct H as [E H].
    apply N.eqb_eq in E. subst b.
    destruct (IH s H) as [r ->]. exists r. reflexivity.
Qed.

Lemma py_in_unfold (sub s : str) :
  py_in sub s =
  starts_with sub s || match s with [] => false | _ :: s' => py_in sub s' end.
Proof. destruct s; reflexivity. Qed.

Lemma py_in_app (sub a b : str) : py_in sub (a ++ sub ++ b) = true.
Proof.
  induction a as [|c a IH].
  - simpl app. rewrite py_in_unfold, starts_with_app. reflexivity.
  - simpl app. rewrite py_in_unfold, IH. apply orb_true_r.
Qed.

(** [py_in] is substring search. *)
Lemma py_in_spec (sub s : str) :
  py_in sub s = true <-> exists a b, s = a ++ sub ++ b.
Proof.
  split.
  - induction s as [|c s IH]; rewrite py_in_unfold; intros H;
      apply orb_true_iff in H; destruct H as [H|H]; try discriminate.
    + destruct (starts_with_inv _ _ H) as [r ->]. exists [], r. reflexivity.
    + destruct (starts_with_inv _ _ H) as [r ->]. exists [], r. reflexivity.
    + destruct (IH H) as (a & b & ->). exists (c :: a), b. reflexivity.
  - intros (a & b & ->). apply py_in_app.
Qed.

Lemma ascii_lower_is_ascii (c : codepoint) :
  is_ascii (ascii_lower c) = true -> is_ascii c = true.
Proof.
  unfold is_ascii, ascii_lower.
  destruct ((65 <=? c) && (c <=? 90))%N eqn:E; [|trivial].
  intros _. apply andb_true_iff in E. destruct E as [_ E].
  apply N.leb_le in E. apply N.ltb_lt. lia.
Qed.

Lemma map_ascii_lower_is_ascii (s : str) :
  forallb is_ascii (map ascii_lower s) = true -> forallb is_ascii s = true.
Proof.
  induction s as [|c s IH]; simpl; [trivial|].
  intros H. apply andb_true_iff in H. destruct H as [H1 H2].
  rewrite (ascii_lower_is_ascii _ H1), (IH H2). reflexivity.
Qed.

Section StringFacts.

Variable U : unicode_data.

Lemma lower_from_ascii (s : str) : forall before after,
  forallb is_ascii s = true ->
  lower_from U before (s ++ after)
  = map ascii_lower s ++ lower_from U (rev s ++ before) after.
Proof.
  induction s as [|c s IH]; intros before after H; [reflexivity|].
  simpl in H. apply andb_true_iff in H. destruct H as [Hc Hs].
  simpl. rewrite Hc, (IH _ _ Hs), <- app_assoc. reflexivity.
Qed.

(** Lowercasing a text lowercases an ASCII stretch of it in place. *)
Lemma lower_from_middle (a s b : str) : forall before,
  forallb is_ascii s = true ->
  exists l r, lower_from U before (a ++ s ++ b) = l ++ map ascii_lower s ++ r.
Proof.
  induction a as [|c a IH]; intros before H.
  - exists [], (lower_from U (rev s ++ before) b).
    simpl app. apply lower_from_ascii; assumption.
  - destruct (IH (c :: before) H) as (l & r & E).
    exists ((if is_ascii c then [ascii_lower c]
             else unicode_lower U before c (a ++ s ++ b)) ++ l), r.
    simpl. rewrite E, <- app_assoc. reflexivity.
Qed.

(** A text that contains an ASCII spelling [s] of [word] in any letter case
    contains [word] once lowercased. *)
Lemma lower_contains (word a s b : str) :
  forallb is_ascii word = true ->
  map ascii_lower s = word ->
  py_in word (lower U (a ++ s ++ b)) = true.
Proof.
  intros Hw E. subst word. unfold lower.
  destruct (@lower_from_middle a s b [] (map_ascii_lower_is_ascii _ Hw)) as (l & r & ->).
  apply py_in_app.
Qed.

End StringFacts.

(** ** Follow-up suggester *)

Lemma first_matching_cases (rules : list (list str * list str)) (question_lower : str) :
  first_matching rules question_lower = default_follow_ups
  \/ exists keywords, In (keywords, first_matching rules question_lower) rules
                      /\ category_matches question_lower keywords = true.
Proof.
  induction rules as [|[keywords set] rest IH]; simpl; [left; reflexivity|].
  destruct (category_matches question_lower keywords) eqn:E.
  - right. exists keywords. split; [left; reflexivity | exact E].
  - destruct IH as [IH|(k & Hin & Hk)]; [left; exact IH|].
    right. exists k. split; [right; exact Hin | exact Hk].
Qed.

(** C3. For every question, [generate_follow_ups] returns exactly three
    strings: the literal set of the first category, in the order funding,
    legal, program, market, one of whose keywords is a substring of the
    lowercased question, and the default set when there is none.  In
    particular a question that contains "funding", in any letter case,
    gets the funding set. *)
Theorem generate_follow_ups_first_match (U : unicode_data) (question : str) :
  length (generate_follow_ups U question) = 3
  /\ generate_follow_ups U question
     = first_matching follow_up_rules (lower U question)
  /\ (py_in (lit "funding") (lower U question) = true ->
      generate_follow_ups U question = funding_follow_ups)
  /\ (forall a s b,
        question = a ++ s ++ b -> map ascii_lower s = lit "funding" ->
        generate_follow_ups U question = funding_follow_ups).
Proof.
  assert (F : py_in (lit "funding") (lower U question) = true ->
              generate_follow_ups U question = funding_follow_ups).
  { intros H. unfold generate_follow_ups, any, funding_words.
    cbn [existsb]. rewrite H. reflexivity. }
  split; [|split; [reflexivity | split; [exact F|]]].
  - unfold generate_follow_ups.
    repeat match goal with |- context [if ?c then _ else _] => destruct c end;
      reflexivity.
  - intros a s b -> E. apply F. apply lower_contains; [reflexivity | exact E].
Qed.

Lemma generate_follow_ups_first_match_witness :
  generate_follow_ups ascii_only (lit "Where do I find FuNdInG?") = funding_follow_ups.
Proof.
  apply (proj2 (proj2 (proj2 (generate_follow_ups_first_match ascii_only
                                (lit "Where do I find FuNdInG?"))))
           (lit "Where do I find ") (lit "FuNdInG") (lit "?"));
    reflexivity.
Defined.

(** ** Source attributor *)

(** C5. For every text, the list [generate_sources] returns starts with the
    base label "Kenya Startup Ecosystem Database" and has at most 4
    entries. *)
Theorem generate_sources_base_first (U : unicode_data) (content : str) :
  hd_error (generate_sources U content) = Some base_label
  /\ length (generate_sources U content) <= 4.
Proof.
  unfold generate_sources.
  destruct (py_in (lit "tlcom") (lower U content));
  destruct (py_in (lit "novastar") (lower U content));
  destruct (py_in (lit "ihub") (lower U content));
  destruct (py_in (lit "mest") (lower U content));
  destruct (any (fun term => py_in term (lower U content))
                [lit "cbk"; lit "central bank"]);
  destruct (py_in (lit "kra") (lower U content));
  cbn [append_if app firstn hd_error length]; split; (reflexivity || lia).
Qed.

(** C6. For every text whose lowercase contains "tlcom", "kra", "mest" and
    "ihub", [generate_sources] returns exactly 4 entries: the base label and
    then organization labels in checklist order (TLcom, Novastar when it is
    mentioned too, iHub, MEST); the trailing "Groq AI Analysis" label is cut
    off by the truncation to 4. *)
Theorem generate_sources_four_orgs (U : unicode_data) (content : str) :
  py_in (lit "tlcom") (lower U content) = true ->
  py_in (lit "kra") (lower U content) = true ->
  py_in (lit "mest") (lower U content) = true ->
  py_in (lit "ihub") (lower U content) = true ->
  length (generate_sources U content) = 4
  /\ ~ In trailing_label (generate_sources U content)
  /\ generate_sources U content
     = if py_in (lit "novastar") (lower U content)
       then [base_label; lit "TLcom Capital"; lit "Novastar Ventures"; lit "iHub Nairobi"]
       else [base_label; lit "TLcom Capital"; lit "iHub Nairobi"; lit "MEST Africa"].
Proof.
  intros Ht Hk Hm Hi. unfold generate_sources. rewrite Ht, Hk, Hm, Hi.
  destruct (py_in (lit "novastar") (lower U content));
  destruct (any (fun term => py_in term (lower U content))
                [lit "cbk"; lit "central bank"]);
  cbn [append_if app firstn length]; (split; [reflexivity|]);
  (split; [|reflexivity]);
  intros [H|[H|[H|[H|[]]]]]; vm_compute in H; discriminate H.
Qed.

Lemma generate_sources_four_orgs_witness :
  generate_sources ascii_only
    (lit "TLcom and iHub back MEST graduates; register with KRA first.")
  = [base_label; lit "TLcom Capital"; lit "iHub Nairobi"; lit "MEST Africa"].
Proof.
  apply (proj2 (proj2 (@generate_sources_four_orgs ascii_only
     (lit "TLcom and iHub back MEST graduates; register with KRA first.")
     eq_refl eq_refl eq_refl eq_refl))).
Defined.

(** ** Binary64 arithmetic: the quotient by 1000 of a length of 1000 or more
    rounds to at least 1.0 *)

Module FloatFacts.
Import PyFloat.
Local Open Scope Z_scope.

Lemma literals_nearest :
  f1_0 = truediv 1 1 /\ f0_1 = truediv 1 10 /\ f0_2 = truediv 2 10
  /\ f0_3 = truediv 3 10 /\ f0_4 = truediv 4 10.
Proof. repeat split; vm_compute; reflexivity. Qed.

Lemma digits2_pos_size (p : positive) : digits2_pos p = Pos.size p.
Proof. induction p; simpl; congruence. Qed.

Lemma Zdigits2_log2 (m : Z) : 0 < m -> Zdigits2 m = Z.log2 m + 1.
Proof.
  destruct m as [|p|p]; try lia. intros _. simpl. rewrite digits2_pos_size.
  destruct p; simpl; lia.
Qed.

Lemma Zdigits2_bounds (m : Z) :
  0 < m -> 2 ^ (Zdigits2 m - 1) <= m < 2 ^ Zdigits2 m.
Proof.
  intros H. rewrite Zdigits2_log2 by assumption.
  replace (Z.log2 m + 1 - 1) with (Z.log2 m) by lia.
  replace (Z.log2 m + 1) with (Z.succ (Z.log2 m)) by lia.
  apply Z.log2_spec; assumption.
Qed.

Lemma Zdigits2_unique (m j : Z) :
  0 < j -> 2 ^ (j - 1) <= m < 2 ^ j -> Zdigits2 m = j.
Proof.
  intros Hj H.
  assert (0 < m) by (assert (0 < 2 ^ (j - 1)) by (apply Z.pow_pos_nonneg; lia); lia).
  rewrite Zdigits2_log2 by assumption.
  assert (Z.log2 m = j - 1); [|lia].
  apply Z.log2_unique; [lia|]. replace (Z.succ (j - 1)) with j by lia. assumption.
Qed.

Lemma Zdigits2_ge (m j : Z) : 0 < j -> 2 ^ (j - 1) <= m -> j <= Zdigits2 m.
Proof.
  intros Hj H.
  assert (0 < 2 ^ (j - 1)) by (apply Z.pow_pos_nonneg; lia).
  rewrite Zdigits2_log2 by lia.
  pose proof (Z.log2_le_mono _ _ H) as L.
  rewrite Z.log2_pow2 in L by lia. lia.
Qed.

(** Shifting right drops the low bits of the mantissa. *)
Lemma shr_1_m (r : shr_record) : 0 <= shr_m r -> shr_m (shr_1 r) = shr_m r / 2.
Proof.
  destruct r as [m rr s]; simpl. intros H.
  destruct m as [|[p|p|]|p]; cbn [shr_m]; try lia; try reflexivity.
  - apply Z.div_unique with (r := 1); lia.
  - apply Z.div_unique with (r := 0); lia.
Qed.

Lemma iter_pos_shr_m (p : positive) : forall r, 0 <= shr_m r ->
  shr_m (iter_pos shr_1 p r) = shr_m r / 2 ^ Zpos p.
Proof.
  assert (NN : forall r, 0 <= shr_m r -> 0 <= shr_m (shr_1 r)).
  { intros r H. rewrite shr_1_m by assumption. apply Z.div_pos; lia. }
  induction p; intros r H; simpl iter_pos.
  - rewrite IHp, IHp, shr_1_m; auto.
    + rewrite Pos2Z.inj_xI. rewrite !Z.div_div by (try lia; apply Z.pow_pos_nonneg; lia).
      f_equal. rewrite <- Z.pow_add_r by lia. rewrite <- Z.pow_succ_r by lia. f_equal; lia.
    + rewrite IHp by auto. apply Z.div_pos; [auto | apply Z.pow_pos_nonneg; lia].
  - rewrite IHp, IHp; auto.
    + rewrite Pos2Z.inj_xO. rewrite !Z.div_div by (try lia; apply Z.pow_pos_nonneg; lia).
      f_equal. rewrite <- Z.pow_add_r by lia. f_equal; lia.
    + rewrite IHp by auto. apply Z.div_pos; [auto | apply Z.pow_pos_nonneg; lia].
  - rewrite shr_1_m by assumption. reflexivity.
Qed.

Lemma shr_record_of_loc_m (m : Z) (l : location) : shr_m (shr_record_of_loc m l) = m.
Proof. destruct l as [|[]]; reflexivity. Qed.

(** A mantissa of 53 bits or more, not below the normal range, is cut down
    to 53 bits. *)
Lemma shr_fexp_norm (mx ex : Z) (lx : location) :
  0 < mx -> 53 <= Zdigits2 mx -> -52 <= ex + Zdigits2 mx - 53 ->
  exists r, shr_fexp prec emax mx ex lx = (r, ex + (Zdigits2 mx - 53))
            /\ shr_m r = mx / 2 ^ (Zdigits2 mx - 53).
Proof.
  intros Hm Hd He. unfold shr_fexp, fexp, emin, prec, emax.
  replace (Z.max (Zdigits2 mx + ex - 53) (3 - 1024 - 53) - ex)
    with (Zdigits2 mx - 53) by lia.
  destruct (Zdigits2 mx - 53) as [|p|p] eqn:K; try lia.
  - eexists; split; [simpl; f_equal; lia|].
    rewrite shr_record_of_loc_m, Z.pow_0_r, Z.div_1_r. reflexivity.
  - eexists; split; [reflexivity|].
    rewrite iter_pos_shr_m; rewrite shr_record_of_loc_m; [reflexivity | lia].
Qed.

Lemma round_nearest_even_range (m : Z) (l : location) :
  m <= round_nearest_even m l <= m + 1.
Proof.
  destruct l as [|[]]; simpl; try lia. destruct (Z.even m); lia.
Qed.

Lemma binary_round_aux_at_least_one (mx ex : Z) (lx : location) :
  0 < mx -> 53 <= Zdigits2 mx -> -52 <= ex + Zdigits2 mx - 53 ->
  at_least_one (binary_round_aux prec emax false mx ex lx).
Proof.
  intros Hm Hd He. unfold binary_round_aux.
  destruct (@shr_fexp_norm mx ex lx Hm Hd He) as (r & E & Hr). rewrite E.
  pose proof (@Zdigits2_bounds mx Hm) as B.
  set (d := Zdigits2 mx) in *.
  assert (P : 0 < 2 ^ (d - 53)) by (apply Z.pow_pos_nonneg; lia).
  assert (R : 2 ^ 52 <= shr_m r < 2 ^ 53).
  { rewrite Hr. split.
    - apply Z.div_le_lower_bound; [assumption|].
      rewrite <- Z.pow_add_r by lia. replace (d - 53 + 52) with (d - 1) by lia. lia.
    - apply Z.div_lt_upper_bound; [assumption|].
      rewrite <- Z.pow_add_r by lia. replace (d - 53 + 53) with d by lia. lia. }
  pose proof (round_nearest_even_range (shr_m r) (loc_of_shr_record r)) as Q.
  set (m1 := round_nearest_even (shr_m r) (loc_of_shr_record r)) in *.
  assert (D : Zdigits2 m1 = 53 \/ (Zdigits2 m1 = 54 /\ m1 = 2 ^ 53)).
  { destruct (Z.eq_dec m1 (2 ^ 53)) as [->|N]; [right; split; reflexivity|left].
    apply Zdigits2_unique; [lia|]. change (53 - 1) with 52. lia. }
  assert (Hm1 : 0 < m1) by (assert (0 < 2 ^ 52) by reflexivity; lia).
  destruct (@shr_fexp_norm m1 (ex + (d - 53)) loc_Exact Hm1) as (r' & E' & Hr'); try lia.
  rewrite E'.
  assert (R' : 2 ^ 52 <= shr_m r').
  { rewrite Hr'. destruct D as [D|[D ->]]; rewrite D.
    - change (2 ^ (53 - 53)) with 1. rewrite Z.div_1_r. lia.
    - vm_compute. discriminate. }
  destruct (shr_m r') as [|m|m] eqn:M; try (assert (0 < 2 ^ 52) by reflexivity; lia).
  destruct (Z.leb _ _); simpl; [|exact I].
  destruct (Z.eq_dec (ex + (d - 53) + (Zdigits2 m1 - 53)) (-52));
    [right; split; assumption|left; lia].
Qed.

Lemma div_eucl_div_mod (a b : Z) : Z.div_eucl a b = (a / b, a mod b).
Proof. unfold Z.div, Z.modulo. destruct (Z.div_eucl a b); reflexivity. Qed.

(** The quotient the division computes before rounding: at least 53 bits
    long, and of value at least 1. *)
Lemma SFdiv_core_1000 (n : Z) :
  1000 <= n ->
  exists q e' l,
    SFdiv_core_binary prec emax n 0 1000 0 = (q, e', l)
    /\ 0 < q /\ 53 <= Zdigits2 q /\ -52 <= e' + Zdigits2 q - 53.
Proof.
  intros H. assert (Hn : 0 < n) by lia.
  pose proof (@Zdigits2_bounds n Hn) as B.
  assert (D : 10 <= Zdigits2 n)
    by (apply Zdigits2_ge; [lia | change (2 ^ (10 - 1)) with 512; lia]).
  unfold SFdiv_core_binary, fexp, emin, prec, emax.
  change (Zdigits2 1000) with 10.
  set (d := Zdigits2 n) in *.
  destruct (Z_le_gt_dec d 63) as [C|C].
  - replace (Z.min (Z.max (d + 0 - (10 + 0) - 53) (3 - 1024 - 53)) (0 - 0))
      with (d - 63) by lia.
    replace (0 - 0 - (d - 63)) with (63 - d) by lia.
    assert (M : (match 63 - d with
                 | Z0 => n | Zpos _ => Z.shiftl n (63 - d) | Zneg _ => 0 end)
                = n * 2 ^ (63 - d)).
    { destruct (63 - d) eqn:K; try lia.
      apply Z.shiftl_mul_pow2; lia. }
    rewrite M, div_eucl_div_mod.
    assert (P : 0 < 2 ^ (63 - d)) by (apply Z.pow_pos_nonneg; lia).
    assert (Q : 2 ^ (63 - d) <= n * 2 ^ (63 - d) / 1000).
    { apply Z.div_le_lower_bound; nia. }
    assert (Q2 : 2 ^ 52 <= n * 2 ^ (63 - d) / 1000).
    { apply Z.div_le_lower_bound; [lia|].
      assert (2 ^ 62 <= n * 2 ^ (63 - d)).
      { replace 62 with ((d - 1) + (63 - d)) by lia. rewrite Z.pow_add_r by lia. nia. }
      assert (1000 * 2 ^ 52 <= 2 ^ 62) by (vm_compute; discriminate). lia. }
    do 3 eexists; split; [reflexivity|].
    split; [lia|]. split.
    + apply Zdigits2_ge; [lia | exact Q2].
    + assert (64 - d <= Zdigits2 (n * 2 ^ (63 - d) / 1000)); [|lia].
      apply Zdigits2_ge; [lia|]. replace (64 - d - 1) with (63 - d) by lia. exact Q.
  - replace (Z.min (Z.max (d + 0 - (10 + 0) - 53) (3 - 1024 - 53)) (0 - 0))
      with 0 by lia.
    change (0 - 0 - 0) with 0. cbv iota. rewrite div_eucl_div_mod.
    assert (Q2 : 2 ^ 53 <= n / 1000).
    { apply Z.div_le_lower_bound; [lia|].
      assert (2 ^ 63 <= n).
      { assert (2 ^ 63 <= 2 ^ (d - 1)) by (apply Z.pow_le_mono_r; lia). lia. }
      assert (1000 * 2 ^ 53 <= 2 ^ 63) by (vm_compute; discriminate). lia. }
    do 3 eexists; split; [reflexivity|].
    assert (0 < 2 ^ 53) by reflexivity.
    split; [lia|].
    assert (54 <= Zdigits2 (n / 1000)) by (apply Zdigits2_ge; [lia | exact Q2]).
    lia.
Qed.

Lemma truediv_1000_at_least_one (n : Z) :
  1000 <= n -> at_least_one (truediv n 1000).
Proof.
  intros H. destruct (@SFdiv_core_1000 n H) as (q & e' & l & E & Hq & Hd & He).
  destruct n as [|p|p]; try lia.
  unfold truediv, exact_int, SFdiv. rewrite E. simpl xorb.
  apply binary_round_aux_at_least_one; assumption.
Qed.

Lemma py_min_at_least_one (x : float) : at_least_one x -> py_min x f1_0 = f1_0.
Proof.
  destruct x as [s|[|]| |[|] m e]; cbn [at_least_one]; try contradiction.
  - intros _. reflexivity.
  - change (2 ^ 52) with (Zpos 4503599627370496).
    intros [H|[-> H]]; unfold py_min, ltb, SFltb, SFcompare, f1_0.
    + destruct (Z.compare_spec (-52) e); try lia. reflexivity.
    + rewrite Z.compare_refl.
      rewrite Pos.compare_cont_spec. unfold Pos.switch_Eq.
      destruct (Pos.compare_spec 4503599627370496 m) as [K|K|K].
      * subst. reflexivity.
      * reflexivity.
      * exfalso. apply (proj1 (Pos.lt_nle _ _) K). exact H.
Qed.

(** [min(n / 1000, 1.0)] is [1.0] from [n = 1000] on. *)
Lemma length_ratio_saturates (n : Z) :
  1000 <= n -> py_min (truediv n 1000) f1_0 = f1_0.
Proof.
  intros H. apply py_min_at_least_one, truediv_1000_at_least_one, H.
Qed.

End FloatFacts.

(** ** The score table *)

Module TableFacts.
Import PyFloat Table FloatFacts.
Local Open Scope Z_scope.

(** All entries for lengths 1 to 1000 and counts 0 to 5, computed. *)
Lemma table_checked :
  check after_length after_mentions after_markers after_digit entry_ok
        (Zrange 1 1000) (Zrange 0 6) = true.
Proof. vm_compute. reflexivity. Qed.

Lemma In_Zrange (z : Z) (first count : nat) :
  Z.of_nat first <= z < Z.of_nat (first + count) -> In z (Zrange first count).
Proof.
  intros H. unfold Zrange. replace z with (Z.of_nat (Z.to_nat z)) by lia.
  apply in_map, in_seq. lia.
Qed.

Lemma check_sound (S : Type) (s1 : Z -> S) (s2 s3 : S -> Z -> S) (s4 : S -> bool -> S)
    (ok : Z -> Z -> Z -> bool -> S -> bool) (lens counts : list Z) :
  check s1 s2 s3 s4 ok lens counts = true ->
  forall len mentions markers digit,
    In len lens -> In mentions counts -> In markers counts ->
    ok len mentions markers digit (s4 (s3 (s2 (s1 len) mentions) markers) digit) = true.
Proof.
  unfold check. intros T len mentions markers digit Hl Hk Hs.
  rewrite forallb_forall in T. specialize (T len Hl). cbv zeta in T.
  rewrite forallb_forall in T. specialize (T mentions Hk). cbv zeta in T.
  rewrite forallb_forall in T. specialize (T markers Hs). cbv zeta in T.
  apply andb_true_iff in T. destruct T as [T0 T1].
  destruct digit; assumption.
Qed.

Lemma score_at_partial_sums (len mentions markers : Z) (digit : bool) :
  score_at len mentions markers digit
  = after_digit (after_markers (after_mentions (after_length len) mentions) markers)
                digit.
Proof. reflexivity. Qed.

Lemma table_entry (len mentions markers : Z) (digit : bool) :
  1 <= len <= 1000 -> 0 <= mentions <= 5 -> 0 <= markers <= 5 ->
  entry_ok len mentions markers digit (score_at len mentions markers digit) = true.
Proof.
  intros Hl Hk Hs. rewrite score_at_partial_sums.
  apply (check_sound _ _ _ _ _ _ _ table_checked); apply In_Zrange; simpl; lia.
Qed.

Lemma count_ratio_saturates (k : Z) :
  5 <= k <= 15 -> py_min (truediv k 5) f1_0 = f1_0.
Proof.
  intros H.
  assert (E : k = 5 \/ k = 6 \/ k = 7 \/ k = 8 \/ k = 9 \/ k = 10 \/ k = 11
              \/ k = 12 \/ k = 13 \/ k = 14 \/ k = 15) by lia.
  repeat (destruct E as [->|E]; [vm_compute; reflexivity|]).
  subst k. vm_compute. reflexivity.
Qed.

Lemma ratio_score_len_min (len : Z) (w : float) :
  ratio_score len 1000 w = ratio_score (Z.min len 1000) 1000 w.
Proof.
  destruct (Z_le_gt_dec len 1000) as [H|H].
  - rewrite Z.min_l by lia. reflexivity.
  - rewrite Z.min_r by lia. unfold ratio_score.
    rewrite length_ratio_saturates by lia.
    rewrite (@length_ratio_saturates 1000) by lia. reflexivity.
Qed.

Lemma ratio_score_count_min (k : Z) (w : float) :
  0 <= k <= 15 -> ratio_score k 5 w = ratio_score (Z.min k 5) 5 w.
Proof.
  intros Hk. destruct (Z_le_gt_dec k 5) as [H|H].
  - rewrite Z.min_l by lia. reflexivity.
  - rewrite Z.min_r by lia. unfold ratio_score.
    rewrite count_ratio_saturates by lia.
    rewrite (@count_ratio_saturates 5) by lia. reflexivity.
Qed.

Lemma score_at_saturates (len mentions markers : Z) (digit : bool) :
  0 <= mentions <= 15 -> 0 <= markers <= 15 ->
  score_at len mentions markers digit
  = score_at (Z.min len 1000) (Z.min mentions 5) (Z.min markers 5) digit.
Proof.
  intros Hk Hs. unfold score_at.
  rewrite (ratio_score_len_min len), (@ratio_score_count_min mentions _ Hk),
    (@ratio_score_count_min markers _ Hs).
  reflexivity.
Qed.

(** Every score of a non-empty text is an entry of the table. *)
Lemma score_at_entry (len mentions markers : Z) (digit : bool) :
  1 <= len -> 0 <= mentions <= 15 -> 0 <= markers <= 15 ->
  entry_ok (Z.min len 1000) (Z.min mentions 5) (Z.min markers 5) digit
           (score_at len mentions markers digit) = true.
Proof.
  intros Hl Hk Hs. rewrite (@score_at_saturates len mentions markers digit Hk Hs).
  apply table_entry; lia.
Qed.

End TableFacts.

(** ** Confidence estimator *)

Section Confidence.

Import PyFloat Table FloatFacts TableFacts.

Variable U : unicode_data.

Lemma sum_1_if_le (A : Type) (p : A -> bool) (xs : list A) :
  sum_1_if p xs <= length xs.
Proof. unfold sum_1_if. apply filter_length_le. Qed.

Lemma kenya_mentions_le (content : str) : kenya_mentions U content <= 15.
Proof. unfold kenya_mentions. apply (sum_1_if_le _ kenya_terms). Qed.

Lemma structure_count_le (content : str) : structure_count content <= 7.
Proof. unfold structure_count. apply (sum_1_if_le _ structure_indicators). Qed.

(** The domain terms are written in lowercase: [term.lower()] is [term]. *)
Lemma kenya_terms_lowercase : map (lower U) kenya_terms = kenya_terms.
Proof. reflexivity. Qed.

Lemma kenya_mentions_presence (content : str) :
  kenya_mentions U content
  = length (filter (fun term => py_in term (lower U content)) kenya_terms).
Proof.
  unfold kenya_mentions, sum_1_if.
  rewrite <- kenya_terms_lowercase at 2.
  generalize kenya_terms. intros terms.
  induction terms as [|t terms IH]; [reflexivity|].
  cbn [map filter].
  destruct (py_in (lower U t) (lower U content)); cbn [length]; rewrite IH;
    reflexivity.
Qed.

Lemma sum_1_if_pos (A : Type) (p : A -> bool) (x : A) (xs : list A) :
  In x xs -> p x = true -> 1 <= sum_1_if p xs.
Proof.
  intros Hin Hp. unfold sum_1_if.
  assert (F : In x (filter p xs)) by (apply filter_In; split; assumption).
  destruct (filter p xs); [contradiction | cbn [length]; lia].
Qed.

Lemma kenya_mentions_pos (content : str) :
  py_in (lit "kenya") (lower U content) = true -> 1 <= kenya_mentions U content.
Proof.
  intros H. unfold kenya_mentions.
  apply sum_1_if_pos with (x := lit "kenya"); [left; reflexivity | exact H].
Qed.

Lemma structure_count_pos (content : str) :
  py_in (lit "##") content = true -> 1 <= structure_count content.
Proof.
  intros H. unfold structure_count.
  apply sum_1_if_pos with (x := lit "##"); [left; reflexivity | exact H].
Qed.

Lemma calculate_confidence_score_at (c : codepoint) (cs question : str) :
  calculate_confidence U (c :: cs) question
  = score_at (Z.of_nat (length (c :: cs)))
             (Z.of_nat (kenya_mentions U (c :: cs)))
             (Z.of_nat (structure_count (c :: cs)))
             (any (isdigit U) (c :: cs)).
Proof. reflexivity. Qed.

(** The score of a non-empty text is the table entry at its saturated
    length and counts. *)
Lemma calculate_confidence_entry (content question : str) :
  content <> [] ->
  entry_ok (Z.min (Z.of_nat (length content)) 1000)
           (Z.min (Z.of_nat (kenya_mentions U content)) 5)
           (Z.min (Z.of_nat (structure_count content)) 5)
           (any (isdigit U) content)
           (calculate_confidence U content question) = true.
Proof.
  destruct content as [|c cs]; [congruence|]. intros _.
  rewrite calculate_confidence_score_at.
  pose proof (kenya_mentions_le (c :: cs)).
  pose proof (structure_count_le (c :: cs)).
  apply score_at_entry; cbn [length]; lia.
Qed.

End Confidence.

(** C1. For every text and every question, the confidence is a float
    between 0.0 and 1.0; the length score is at its full 0.3 from 1000
    characters on, and the domain score is 0.0 when no domain term occurs. *)
Theorem calculate_confidence_in_unit_interval
    (U : unicode_data) (content question : str) :
  PyFloat.leb PyFloat.f0_0 (calculate_confidence U content question) = true
  /\ PyFloat.leb (calculate_confidence U content question) PyFloat.f1_0 = true
  /\ (1000 <= length content -> length_score content = PyFloat.f0_3)
  /\ (kenya_mentions U content = 0 -> kenya_score U content = PyFloat.f0_0).
Proof.
  split; [|split; [|split]].
  - destruct content as [|c cs]; [reflexivity|].
    pose proof (@calculate_confidence_entry U (c :: cs) question
                  ltac:(discriminate)) as E.
    unfold Table.entry_ok in E. rewrite !andb_true_iff in E. tauto.
  - destruct content as [|c cs]; [reflexivity|].
    pose proof (@calculate_confidence_entry U (c :: cs) question
                  ltac:(discriminate)) as E.
    unfold Table.entry_ok in E. rewrite !andb_true_iff in E. tauto.
  - intros H. unfold length_score.
    rewrite FloatFacts.length_ratio_saturates by lia. reflexivity.
  - intros H. unfold kenya_score. rewrite H. reflexivity.
Qed.

(** C2. For the empty text and any question the confidence is exactly 0.0,
    returned before any sub-score is computed. *)
Theorem calculate_confidence_empty (U : unicode_data) (question : str) :
  calculate_confidence U (lit "") question = PyFloat.f0_0.
Proof. reflexivity. Qed.

(** C4, as the code has it: the domain-relevance score is
    [min(count / 5, 1.0) * 0.4], where [count] is the number of terms of the
    fixed vocabulary that occur in the lowercased text, each term counted
    once however often it occurs; the vocabulary has 15 terms, all
    different. *)
Theorem kenya_score_presence_count (U : unicode_data) (content : str) :
  kenya_score U content
  = PyFloat.mul
      (PyFloat.py_min
         (PyFloat.truediv
            (Z.of_nat (length (filter (fun term => py_in term (lower U content))
                                     kenya_terms))) 5)
         PyFloat.f1_0)
      PyFloat.f0_4
  /\ length kenya_terms = 15
  /\ NoDup kenya_terms
  /\ kenya_mentions U (lit "kenya, kenya, kenya") = 1.
Proof.
  split; [|split; [reflexivity | split; [|reflexivity]]].
  - unfold kenya_score. rewrite kenya_mentions_presence. reflexivity.
  - assert (E : nodup (list_eq_dec N.eq_dec) kenya_terms = kenya_terms)
      by (vm_compute; reflexivity).
    rewrite <- E. apply NoDup_nodup.
Qed.

(** C4 as stated fails: the vocabulary has 15 terms, not 14, and a text
    that mentions them all is counted 15 times. *)
Lemma kenya_terms_fifteen :
  length kenya_terms = 15
  /\ kenya_mentions ascii_only
       (lit "Kenyan founders in Nairobi and Mombasa: KRA, CBK, iHub, TLcom, Novastar, MEST, Antler, shilling, East Africa, KIICO, eCitizen")
     = 15.
Proof. split; vm_compute; reflexivity. Qed.

(** C7, as the code has it: a text that contains "Kenya" twice, a "##"
    header and a digit, and is at least 267 characters long, has a
    confidence strictly between 0.3 and 1.0. *)
Theorem calculate_confidence_kenya_header_digit
    (U : unicode_data) (content question : str) :
  (exists a b c, content = a ++ lit "Kenya" ++ b ++ lit "Kenya" ++ c) ->
  py_in (lit "##") content = true ->
  any (isdigit U) content = true ->
  267 <= length content ->
  PyFloat.ltb PyFloat.f0_3 (calculate_confidence U content question) = true
  /\ PyFloat.ltb (calculate_confidence U content question) PyFloat.f1_0 = true.
Proof.
  intros (a & b & c & E) Hh Hd Hl.
  assert (Hk : py_in (lit "kenya") (lower U content) = true).
  { rewrite E. apply lower_contains; reflexivity. }
  assert (N : content <> []) by (destruct content; [simpl in Hl; lia | discriminate]).
  pose proof (@calculate_confidence_entry U content question N) as T.
  pose proof (kenya_mentions_pos U content Hk) as Pk.
  pose proof (structure_count_pos content Hh) as Ps.
  unfold Table.entry_ok in T. rewrite Hd in T.
  replace (267 <=? Z.min (Z.of_nat (length content)) 1000)%Z with true in T
    by (symmetry; apply Z.leb_le; lia).
  replace (1 <=? Z.min (Z.of_nat (kenya_mentions U content)) 5)%Z with true in T
    by (symmetry; apply Z.leb_le; lia).
  replace (1 <=? Z.min (Z.of_nat (structure_count content)) 5)%Z with true in T
    by (symmetry; apply Z.leb_le; lia).
  cbn [andb] in T. rewrite !andb_true_iff in T. tauto.
Qed.

Lemma calculate_confidence_kenya_header_digit_witness :
  PyFloat.ltb PyFloat.f0_3
    (calculate_confidence ascii_only sample_answer
       (lit "How do I raise funding in Nairobi?")) = true
  /\ PyFloat.ltb
       (calculate_confidence ascii_only sample_answer
          (lit "How do I raise funding in Nairobi?")) PyFloat.f1_0 = true.
Proof.
  assert (H1 : exists a b c,
             sample_answer = a ++ lit "Kenya" ++ b ++ lit "Kenya" ++ c).
  { exists (lit "## Funding in "), [newline],
      (lit " has 4 active venture funds. TLcom Capital writes Series A cheques, Novastar Ventures backs early-stage teams, and the Nairobi Angel Network invests at pre-seed. Register the company on eCitizen, obtain a KRA PIN, and prepare a pitch deck, a financial model and a cap table first.").
    vm_compute. reflexivity. }
  assert (H2 : py_in (lit "##") sample_answer = true) by (vm_compute; reflexivity).
  assert (H3 : any (isdigit ascii_only) sample_answer = true)
    by (vm_compute; reflexivity).
  assert (H4 : 267 <= length sample_answer)
    by (apply Nat.leb_le; vm_compute; reflexivity).
  exact (@calculate_confidence_kenya_header_digit ascii_only sample_answer
           (lit "How do I raise funding in Nairobi?") H1 H2 H3 H4).
Defined.

(** The largest score: all four components at their maximum add up, in
    binary64, to the float just below 1.0 (0.9999999999999999). *)
Lemma score_at_maximum :
  Table.score_at 1000 5 5 true = S754_finite false 9007199254740991 (-53).
Proof. vm_compute. reflexivity. Qed.

(** The bound of 267 characters is the least one: at 266, one domain term,
    one marker and a digit give a score below 0.3. *)
Lemma score_at_266_below :
  PyFloat.ltb PyFloat.f0_3 (Table.score_at 266 1 1 true) = false
  /\ PyFloat.ltb PyFloat.f0_3 (Table.score_at 267 1 1 true) = true.
Proof. split; vm_compute; reflexivity. Qed.

(** C7 as stated fails on a short text: "Kenya" twice, a "##" header and a
    digit in 16 characters score 0.2248 (to the last bit,
    8099273569863101 / 2^55), which is not above 0.3. *)
Lemma calculate_confidence_short_text :
  lit "Kenya Kenya ## 1" = [] ++ lit "Kenya" ++ lit " " ++ lit "Kenya" ++ lit " ## 1"
  /\ py_in (lit "##") (lit "Kenya Kenya ## 1") = true
  /\ any (isdigit ascii_only) (lit "Kenya Kenya ## 1") = true
  /\ calculate_confidence ascii_only (lit "Kenya Kenya ## 1")
       (lit "How do I raise funding in Nairobi?")
     = S754_finite false 8099273569863101 (-55)
  /\ PyFloat.ltb PyFloat.f0_3
       (calculate_confidence ascii_only (lit "Kenya Kenya ## 1")
          (lit "How do I raise funding in Nairobi?"))
     = false.
Proof. repeat split; vm_compute; reflexivity. Qed.

(** C10. The question has no influence on the confidence. *)
Theorem calculate_confidence_ignores_question
    (U : unicode_data) (content question1 question2 : str) :
  calculate_confidence U content question1
  = calculate_confidence U content question2.
Proof. reflexivity. Qed.

(** ** The query handler *)

Lemma lookup_choices_falls_back (items : list (str * value)) :
  lookup (lit "choices") items = None
  \/ lookup (lit "choices") items = Some (VList []) ->
  extract_content (VDict items) = Ok (VStr apology).
Proof.
  intros [H|H]; unfold extract_content, has_choices, contains_key, getitem;
    rewrite H; reflexivity.
Qed.

(** C8. When the completion service answers 200 with a JSON object whose
    "choices" is absent or an empty array, the handler does not fail: it
    returns a response whose answer is the fixed apology string, scored and
    attributed like any other answer. *)
Theorem process_query_no_choices
    (env : environment) (request : QueryRequest) (api_key : str)
    (response : Response) (items : list (str * value)) :
  GROQ_API_KEY env = Some api_key -> api_key <> [] ->
  client_post env api_key (user_prompt request) = Ok response ->
  status_code response = 200%Z ->
  json response = Ok (VDict items) ->
  lookup (lit "choices") items = None
  \/ lookup (lit "choices") items = Some (VList []) ->
  process_query env request
  = Returned
      {| answer := apology;
         confidence := calculate_confidence (unicode env) apology (question request);
         processing_time := round_2 env (PyFloat.sub (end_time env) (start_time env));
         sources := generate_sources (unicode env) apology;
         suggested_follow_ups := generate_follow_ups (unicode env) (question request);
         timestamp := now_isoformat env |}.
Proof.
  intros Hkey Hne Hpost Hstatus Hjson Hchoices.
  unfold process_query, process_query_body. rewrite Hkey.
  destruct api_key as [|k ks]; [congruence|].
  rewrite Hpost. cbn [bind]. rewrite Hstatus.
  change (200 =? 401)%Z with false. change (200 =? 429)%Z with false.
  change (negb (200 =? 200)%Z) with false. cbv iota.
  rewrite Hjson. cbn [bind]. rewrite (lookup_choices_falls_back _ Hchoices).
  reflexivity.
Qed.

Lemma process_query_no_choices_witness :
  process_query
    (env_replying {| status_code := 200; text := lit "{}"; json := Ok (VDict []) |})
    funding_request
  = Returned
      {| answer := apology;
         confidence := calculate_confidence ascii_only apology
                         (lit "How do I raise funding in Nairobi?");
         processing_time := PyFloat.sub PyFloat.f0_1 PyFloat.f0_0;
         sources := generate_sources ascii_only apology;
         suggested_follow_ups :=
           generate_follow_ups ascii_only (lit "How do I raise funding in Nairobi?");
         timestamp := lit "2024-05-01T12:00:00" |}.
Proof.
  apply (@process_query_no_choices
           (env_replying {| status_code := 200; text := lit "{}";
                            json := Ok (VDict []) |})
           funding_request (lit "gsk_example")
           {| status_code := 200; text := lit "{}"; json := Ok (VDict []) |} []).
  - reflexivity.
  - vm_compute. discriminate.
  - reflexivity.
  - reflexivity.
  - reflexivity.
  - left. reflexivity.
Defined.

(** C9, as the code has it: with the credential set and a reply received,
    status 429 fails with the rate-limit error (status 429), status 401 with
    the fixed invalid-key message, and every other status but 200 with the
    generic upstream error (status 500) whose message carries the upstream
    status code and the response body. *)
Theorem process_query_upstream_errors
    (env : environment) (request : QueryRequest) (api_key : str)
    (response : Response) :
  GROQ_API_KEY env = Some api_key -> api_key <> [] ->
  client_post env api_key (user_prompt request) = Ok response ->
  (status_code response = 429%Z ->
   process_query env request
   = Failed 429 (lit "Rate limit exceeded. Please try again in a moment."))
  /\ (status_code response = 401%Z ->
      process_query env request
      = Failed 500 (lit "Invalid Groq API key. Please check your GROQ_API_KEY."))
  /\ (status_code response <> 200%Z -> status_code response <> 401%Z ->
      status_code response <> 429%Z ->
      process_query env request
      = Failed 500 (lit "Groq API error: " ++ str_of_int (status_code response)
                      ++ lit " - " ++ text response)).
Proof.
  intros Hkey Hne Hpost.
  unfold process_query, process_query_body. rewrite Hkey.
  destruct api_key as [|k ks]; [congruence|].
  rewrite Hpost. cbn [bind].
  split; [|split].
  - intros ->. reflexivity.
  - intros ->. reflexivity.
  - intros H200 H401 H429.
    apply Z.eqb_neq in H200, H401, H429. rewrite H200, H401, H429.
    reflexivity.
Qed.

Lemma process_query_upstream_errors_witness :
  process_query
    (env_replying {| status_code := 503; text := lit "Service Unavailable";
                     json := Raise (Other (lit "Expecting value")) |})
    funding_request
  = Failed 500 (lit "Groq API error: 503 - Service Unavailable").
Proof.
  apply (proj2 (proj2 (@process_query_upstream_errors
           (env_replying {| status_code := 503; text := lit "Service Unavailable";
                            json := Raise (Other (lit "Expecting value")) |})
           funding_request (lit "gsk_example")
           {| status_code := 503; text := lit "Service Unavailable";
              json := Raise (Other (lit "Expecting value")) |}
           eq_refl ltac:(vm_compute; discriminate) eq_refl)));
    vm_compute; discriminate.
Defined.

(** C9 as stated fails at status 401, which is neither 200 nor 429: the
    failure carries the fixed invalid-key message, with neither the status
    code nor the response body in it. *)
Lemma process_query_unauthorized :
  process_query
    (env_replying {| status_code := 401; text := lit "unauthorized";
                     json := Ok (VDict []) |})
    funding_request
  = Failed 500 (lit "Invalid Groq API key. Please check your GROQ_API_KEY.")
  /\ py_in (str_of_int 401)
           (lit "Invalid Groq API key. Please check your GROQ_API_KEY.") = false
  /\ py_in (lit "unauthorized")
           (lit "Invalid Groq API key. Please check your GROQ_API_KEY.") = false.
Proof. repeat split; vm_compute; reflexivity. Qed.

(** * Further properties *)

(** ** The query handler: failures and returned responses *)

(** X1. Without a credential (unset or empty) the handler fails with status
    500 and the fixed message, whatever the completion service would have
    answered: it is never consulted. *)
Lemma process_query_missing_credential (env : environment) (request : QueryRequest) :
  GROQ_API_KEY env = None \/ GROQ_API_KEY env = Some [] ->
  process_query env request
  = Failed 500 (lit "GROQ_API_KEY environment variable not set").
Proof.
  intros [H|H]; unfold process_query, process_query_body; rewrite H; reflexivity.
Qed.

Lemma process_query_missing_credential_witness :
  process_query env_without_key funding_request
  = Failed 500 (lit "GROQ_API_KEY environment variable not set").
Proof.
  apply (@process_query_missing_credential env_without_key funding_request).
  left. reflexivity.
Defined.

(** X2. When the call to the completion service raises (time-out, network
    failure), the handler fails with status 500 and the exception's text
    after "Error processing query: ". *)
Lemma process_query_client_error
    (env : environment) (request : QueryRequest) (api_key message : str) :
  GROQ_API_KEY env = Some api_key -> api_key <> [] ->
  client_post env api_key (user_prompt request) = Raise (Other message) ->
  process_query env request
  = Failed 500 (lit "Error processing query: " ++ message).
Proof.
  intros Hkey Hne Hpost. unfold process_query, process_query_body. rewrite Hkey.
  destruct api_key as [|k ks]; [congruence|]. rewrite Hpost. reflexivity.
Qed.

Lemma interpreter_result_bind (A B : Type) (m : result A) (k : A -> result B) :
  interpreter_result m -> (forall a, interpreter_result (k a)) ->
  interpreter_result (bind m k).
Proof. destruct m as [a|[]]; cbn; auto. Qed.

Lemma getitem_interpreter (v : value) (key : str) : interpreter_result (getitem v key).
Proof. destruct v; cbn; auto. destruct (lookup key items); cbn; auto. Qed.

Lemma getitem_0_interpreter (v : value) : interpreter_result (getitem_0 v).
Proof.
  destruct v as [| | | |s|items|items]; cbn; auto.
  - destruct s; cbn; auto.
  - destruct items; cbn; auto.
Qed.

Lemma contains_key_interpreter (key : str) (v : value) :
  interpreter_result (contains_key key v).
Proof. destruct v; cbn; auto. Qed.

(** Taking the completion out of the decoded body raises interpreter errors
    only. *)
Lemma extract_content_interpreter (data : value) :
  interpreter_result (extract_content data).
Proof.
  unfold extract_content, has_choices.
  repeat (apply interpreter_result_bind;
          [try apply contains_key_interpreter; try apply getitem_interpreter;
           try apply getitem_0_interpreter
          | intros ?]);
    try apply getitem_interpreter;
    repeat match goal with
           | |- interpreter_result (if ?b then _ else _) => destruct b
           | |- interpreter_result (Ok _) => exact I
           | |- interpreter_result (bind _ _) =>
               apply interpreter_result_bind;
               [try apply getitem_interpreter; try apply getitem_0_interpreter
               | intros ?]
           end;
    try apply getitem_interpreter.
Qed.

(** X3. The handler fails with status 500 or 429 only, and with 429 only
    when the completion service itself answered 429 (given that the HTTP
    client and the JSON decoder raise only their own exceptions). *)
Lemma process_query_failure_status
    (env : environment) (request : QueryRequest) (code : Z) (detail : str) :
  library_environment env ->
  process_query env request = Failed code detail ->
  code = 500%Z
  \/ (code = 429%Z
      /\ exists api_key response,
           GROQ_API_KEY env = Some api_key
           /\ client_post env api_key (user_prompt request) = Ok response
           /\ status_code response = 429%Z).
Proof.
  intros L. unfold process_query, process_query_body.
  destruct (GROQ_API_KEY env) as [[|k ks]|] eqn:Hkey;
    try (intros H; injection H as <- _; left; reflexivity).
  destruct (L (k :: ks) (user_prompt request)) as [L1 L2].
  destruct (client_post env (k :: ks) (user_prompt request)) as [response|e] eqn:Hpost.
  - cbn [bind]. specialize (L2 response eq_refl).
    destruct (status_code response =? 401)%Z eqn:E401;
      [intros H; injection H as <- _; left; reflexivity|].
    destruct (status_code response =? 429)%Z eqn:E429.
    { intros H; injection H as <- _. right. split; [reflexivity|].
      exists (k :: ks), response. apply Z.eqb_eq in E429. auto. }
    destruct (negb (status_code response =? 200)%Z);
      [intros H; injection H as <- _; left; reflexivity|].
    destruct (json response) as [data|e]; cbn [bind].
    + pose proof (extract_content_interpreter data) as I.
      destruct (extract_content data) as [content|e]; cbn [bind].
      * destruct content; cbn [respond];
          try (intros H; injection H as <- _; left; reflexivity).
        discriminate.
      * destruct e; try contradiction.
        intros H; injection H as <- _; left; reflexivity.
    + destruct e; try contradiction. intros H; injection H as <- _; left; reflexivity.
  - cbn [bind]. destruct e; try contradiction.
    intros H; injection H as <- _; left; reflexivity.
Qed.


Lemma generate_sources_shape (U : unicode_data) (content : str) :
  generate_sources U content
  = firstn 4 (base_label :: matched_labels U content ++ [trailing_label]).
Proof.
  unfold generate_sources, matched_labels, org_checklist, any.
  cbn [filter fst existsb]. rewrite !orb_false_r.
  destruct (py_in (lit "tlcom") (lower U content));
  destruct (py_in (lit "novastar") (lower U content));
  destruct (py_in (lit "ihub") (lower U content));
  destruct (py_in (lit "mest") (lower U content));
  destruct (py_in (lit "cbk") (lower U content) || py_in (lit "central bank") (lower U content));
  destruct (py_in (lit "kra") (lower U content));
  reflexivity.
Qed.


Lemma calculate_confidence_bounds (U : unicode_data) (content question : str) :
  PyFloat.leb PyFloat.f0_0 (calculate_confidence U content question) = true
  /\ PyFloat.leb (calculate_confidence U content question) PyFloat.f1_0 = true.
Proof.
  destruct content as [|c cs]; [split; reflexivity|].
  pose proof (@calculate_confidence_entry U (c :: cs) question
                ltac:(discriminate)) as E.
  unfold Table.entry_ok in E. rewrite !andb_true_iff in E. tauto.
Qed.



(** X5. A 200 reply whose JSON object has a non-empty "choices" array, the
    first choice an object with a "message" object holding a string
    "content", is returned with that content as the answer, scored and
    attributed by the three heuristics. *)
Theorem process_query_success
    (env : environment) (request : QueryRequest) (api_key : str)
    (response : Response) (body first message : list (str * value))
    (rest : list value) (content : str) :
  GROQ_API_KEY env = Some api_key -> api_key <> [] ->
  client_post env api_key (user_prompt request) = Ok response ->
  status_code response = 200%Z ->
  json response = Ok (VDict body) ->
  lookup (lit "choices") body = Some (VList (VDict first :: rest)) ->
  lookup (lit "message") first = Some (VDict message) ->
  lookup (lit "content") message = Some (VStr content) ->
  process_query env request
  = Returned
      {| answer := content;
         confidence := calculate_confidence (unicode env) content (question request);
         processing_time := round_2 env (PyFloat.sub (end_time env) (start_time env));
         sources := generate_sources (unicode env) content;
         suggested_follow_ups := generate_follow_ups (unicode env) (question request);
         timestamp := now_isoformat env |}.
Proof.
  intros Hkey Hne Hpost Hstatus Hjson Hchoices Hmessage Hcontent.
  unfold process_query, process_query_body. rewrite Hkey.
  destruct api_key as [|k ks]; [congruence|].
  rewrite Hpost. cbn [bind]. rewrite Hstatus.
  change (200 =? 401)%Z with false. change (200 =? 429)%Z with false.
  change (negb (200 =? 200)%Z) with false. cbv iota.
  rewrite Hjson. cbn [bind].
  unfold extract_content, has_choices, contains_key, getitem.
  rewrite Hchoices. cbn [bind truthy length Nat.eqb negb getitem_0].
  rewrite Hmessage. cbn [bind]. rewrite Hcontent. reflexivity.
Qed.

Lemma process_query_success_witness :
  process_query
    (env_replying {| status_code := 200; text := lit "(json)";
                     json := Ok (completion_body sample_answer) |})
    funding_request
  = Returned
      {| answer := sample_answer;
         confidence := calculate_confidence ascii_only sample_answer
                         (lit "How do I raise funding in Nairobi?");
         processing_time := PyFloat.sub PyFloat.f0_1 PyFloat.f0_0;
         sources := generate_sources ascii_only sample_answer;
         suggested_follow_ups :=
           generate_follow_ups ascii_only (lit "How do I raise funding in Nairobi?");
         timestamp := lit "2024-05-01T12:00:00" |}.
Proof.
  apply (@process_query_success
           (env_replying {| status_code := 200; text := lit "(json)";
                            json := Ok (completion_body sample_answer) |})
           funding_request (lit "gsk_example")
           {| status_code := 200; text := lit "(json)";
              json := Ok (completion_body sample_answer) |}
           (completion_items sample_answer) (completion_choice sample_answer)
           (completion_message sample_answer) []);
    try reflexivity.
  vm_compute. discriminate.
Defined.

(** X6. The startup profile of a request has no influence on the outcome,
    and an empty context is the same as no context. *)
Theorem process_query_ignores_profile
    (env : environment) (question : str) (context : option str)
    (profile1 profile2 : option value) :
  process_query env
    {| question := question; startup_profile := profile1; context := context |}
  = process_query env
      {| question := question; startup_profile := profile2; context := context |}
  /\ process_query env
       {| question := question; startup_profile := profile1; context := Some [] |}
     = process_query env
         {| question := question; startup_profile := profile2; context := None |}.
Proof. split; reflexivity. Qed.

(** X7. A 200 reply that cannot be used fails with status 500 and a
    processing error instead of returning: a body that is not JSON, a JSON
    value that is neither object, array nor string (a type error), and a
    first choice without a "message" (a key error). *)
Theorem process_query_malformed_reply
    (env : environment) (request : QueryRequest) (api_key : str)
    (response : Response) :
  GROQ_API_KEY env = Some api_key -> api_key <> [] ->
  client_post env api_key (user_prompt request) = Ok response ->
  status_code response = 200%Z ->
  (forall message, json response = Raise (Other message) ->
     process_query env request
     = Failed 500 (lit "Error processing query: " ++ message))
  /\ (forall data, json response = Ok data ->
        match data with VDict _ | VList _ | VStr _ => False | _ => True end ->
        process_query env request
        = Failed 500 (lit "Error processing query: " ++ error_message env TypeError))
  /\ (forall body first rest, json response = Ok (VDict body) ->
        lookup (lit "choices") body = Some (VList (VDict first :: rest)) ->
        lookup (lit "message") first = None ->
        process_query env request
        = Failed 500 (lit "Error processing query: " ++ error_message env KeyError)).
Proof.
  intros Hkey Hne Hpost Hstatus.
  unfold process_query, process_query_body. rewrite Hkey.
  destruct api_key as [|k ks]; [congruence|].
  rewrite Hpost. cbn [bind]. rewrite Hstatus.
  change (200 =? 401)%Z with false. change (200 =? 429)%Z with false.
  change (negb (200 =? 200)%Z) with false. cbv iota.
  split; [|split].
  - intros message ->. reflexivity.
  - intros data -> Hshape. destruct data; try contradiction; reflexivity.
  - intros body first rest -> Hchoices Hmessage. cbn [bind].
    unfold extract_content, has_choices, contains_key, getitem.
    rewrite Hchoices. cbn [bind truthy length Nat.eqb negb getitem_0].
    rewrite Hmessage. reflexivity.
Qed.

Lemma process_query_malformed_reply_witness :
  process_query
    (env_replying {| status_code := 200; text := lit "<html>";
                     json := Raise (Other (lit "Expecting value: line 1 column 1 (char 0)")) |})
    funding_request
  = Failed 500
      (lit "Error processing query: Expecting value: line 1 column 1 (char 0)").
Proof.
  apply (proj1 (@process_query_malformed_reply
           (env_replying {| status_code := 200; text := lit "<html>";
                            json := Raise (Other (lit "Expecting value: line 1 column 1 (char 0)")) |})
           funding_request (lit "gsk_example")
           {| status_code := 200; text := lit "<html>";
              json := Raise (Other (lit "Expecting value: line 1 column 1 (char 0)")) |}
           eq_refl ltac:(vm_compute; discriminate) eq_refl eq_refl)).
  reflexivity.
Defined.

Lemma process_query_failure_status_witness :
  429%Z = 500%Z
  \/ (429%Z = 429%Z
      /\ exists api_key response,
           GROQ_API_KEY
             (env_replying {| status_code := 429; text := lit "slow down";
                              json := Ok (VDict []) |}) = Some api_key
           /\ client_post
                (env_replying {| status_code := 429; text := lit "slow down";
                                 json := Ok (VDict []) |})
                api_key (user_prompt funding_request) = Ok response
           /\ status_code response = 429%Z).
Proof.
  apply (@process_query_failure_status
           (env_replying {| status_code := 429; text := lit "slow down";
                            json := Ok (VDict []) |})
           funding_request 429
           (lit "Rate limit exceeded. Please try again in a moment.")).
  - intros api_key prompt. split; [exact I|].
    intros response H. injection H as <-. exact I.
  - reflexivity.
Defined.

Lemma process_query_client_error_witness :
  process_query
    {| unicode := ascii_only;
       GROQ_API_KEY := Some (lit "gsk_example");
       start_time := PyFloat.f0_0;
       end_time := PyFloat.f0_1;
       now_isoformat := lit "2024-05-01T12:00:00";
       client_post := fun _ _ => Raise (Other (lit "timed out"));
       round_2 := fun x => x;
       error_message := fun _ => lit "error" |}
    funding_request
  = Failed 500 (lit "Error processing query: timed out").
Proof.
  apply (@process_query_client_error _ funding_request (lit "gsk_example")
           (lit "timed out")).
  - reflexivity.
  - vm_compute. discriminate.
  - reflexivity.
Defined.

(** ** The heuristics: decisions, letter case, overlaps *)

(** X8. Which set the follow-up suggester returns is decided by the
    categories in priority order: the funding set exactly when a funding
    keyword occurs, the legal set exactly when none does and a legal keyword
    occurs, and so on; the default set exactly when no keyword of any
    category occurs. *)
Theorem generate_follow_ups_decision (U : unicode_data) (question : str) :
  (generate_follow_ups U question = funding_follow_ups
   <-> category_matches (lower U question) funding_words = true)
  /\ (generate_follow_ups U question = legal_follow_ups
      <-> category_matches (lower U question) funding_words = false
          /\ category_matches (lower U question) legal_words = true)
  /\ (generate_follow_ups U question = program_follow_ups
      <-> category_matches (lower U question) funding_words = false
          /\ category_matches (lower U question) legal_words = false
          /\ category_matches (lower U question) program_words = true)
  /\ (generate_follow_ups U question = market_follow_ups
      <-> category_matches (lower U question) funding_words = false
          /\ category_matches (lower U question) legal_words = false
          /\ category_matches (lower U question) program_words = false
          /\ category_matches (lower U question) market_words = true)
  /\ (generate_follow_ups U question = default_follow_ups
      <-> category_matches (lower U question)
            (funding_words ++ legal_words ++ program_words ++ market_words)
          = false).
Proof.
  unfold category_matches. rewrite !existsb_app.
  unfold generate_follow_ups, any.
  destruct (existsb (fun word => py_in word (lower U question)) funding_words);
  destruct (existsb (fun word => py_in word (lower U question)) legal_words);
  destruct (existsb (fun word => py_in word (lower U question)) program_words);
  destruct (existsb (fun word => py_in word (lower U question)) market_words);
  cbn [orb];
  repeat match goal with |- _ /\ _ => split end;
  (split; intros K;
   first [ solve [repeat split; reflexivity]
         | solve [intuition discriminate]
         | exfalso; vm_compute in K; discriminate K ]).
Qed.

Lemma lower_ascii (U : unicode_data) (s : str) :
  forallb is_ascii s = true -> lower U s = map ascii_lower s.
Proof.
  intros H. unfold lower.
  rewrite <- (app_nil_r s) at 1.
  rewrite (@lower_from_ascii U s [] [] H). apply app_nil_r.
Qed.

Lemma ascii_lower_isdigit (U : unicode_data) (c : codepoint) :
  isdigit U (ascii_lower c) = isdigit U c.
Proof.
  unfold ascii_lower.
  destruct ((65 <=? c) && (c <=? 90))%N eqn:E; [|reflexivity].
  apply andb_true_iff in E. destruct E as [E1 E2].
  apply N.leb_le in E1, E2.
  unfold isdigit, is_ascii, ascii_isdigit.
  replace (c + 32 <? 128)%N with true by (symmetry; apply N.ltb_lt; lia).
  replace (c <? 128)%N with true by (symmetry; apply N.ltb_lt; lia).
  replace (c + 32 <=? 57)%N with false by (symmetry; apply N.leb_gt; lia).
  replace (c <=? 57)%N with false by (symmetry; apply N.leb_gt; lia).
  rewrite !andb_false_r. reflexivity.
Qed.

Lemma any_isdigit_lower (U : unicode_data) (s : str) :
  any (isdigit U) (map ascii_lower s) = any (isdigit U) s.
Proof.
  unfold any. induction s as [|c s IH]; [reflexivity|].
  cbn [map existsb]. rewrite ascii_lower_isdigit, IH. reflexivity.
Qed.

Lemma eqb_ascii_lower (a b : codepoint) :
  is_letter a = false -> (a =? ascii_lower b)%N = (a =? b)%N.
Proof.
  unfold is_letter, ascii_lower. intros H.
  destruct ((65 <=? b) && (b <=? 90))%N eqn:E; [|reflexivity].
  apply andb_true_iff in E. destruct E as [E1 E2]. apply N.leb_le in E1, E2.
  apply orb_false_iff in H. destruct H as [H1 H2].
  apply andb_false_iff in H1, H2.
  destruct (N.eqb_spec a (b + 32)) as [P1|N1]; destruct (N.eqb_spec a b) as [P2|N2];
    try reflexivity; exfalso.
  - destruct H2 as [H2|H2]; apply N.leb_gt in H2; lia.
  - destruct H1 as [H1|H1]; apply N.leb_gt in H1; lia.
Qed.

Lemma starts_with_caseless (p : str) : forall s,
  caseless p = true -> starts_with p (map ascii_lower s) = starts_with p s.
Proof.
  induction p as [|a p IH]; intros s H; [reflexivity|].
  cbn [caseless forallb] in H. apply andb_true_iff in H. destruct H as [Ha Hp].
  apply negb_true_iff in Ha.
  destruct s as [|b s]; [reflexivity|]. cbn [map starts_with].
  rewrite (@eqb_ascii_lower a b Ha), (IH s Hp). reflexivity.
Qed.

(** Changing letter case does not move a pattern without letters. *)
Lemma py_in_caseless (p s : str) :
  caseless p = true -> py_in p (map ascii_lower s) = py_in p s.
Proof.
  intros H. induction s as [|b s IH].
  - reflexivity.
  - rewrite (py_in_unfold p (b :: s)).
    change (map ascii_lower (b :: s)) with (ascii_lower b :: map ascii_lower s).
    rewrite (py_in_unfold p (ascii_lower b :: map ascii_lower s)).
    change (ascii_lower b :: map ascii_lower s) with (map ascii_lower (b :: s)).
    rewrite (@starts_with_caseless p (b :: s) H), IH. reflexivity.
Qed.

Lemma structure_count_lower (s : str) :
  structure_count (map ascii_lower s) = structure_count s.
Proof.
  unfold structure_count, sum_1_if. f_equal.
  apply filter_ext_in. intros p Hin. apply py_in_caseless.
  revert p Hin. apply Forall_forall.
  repeat constructor.
Qed.

(** X9. On ASCII texts the three heuristics ignore letter case: two texts
    that agree once lowercased get the same follow-ups, the same sources and
    the same confidence. *)
Theorem heuristics_ignore_letter_case
    (U : unicode_data) (text text' question : str) :
  forallb is_ascii text = true -> forallb is_ascii text' = true ->
  map ascii_lower text = map ascii_lower text' ->
  generate_follow_ups U text = generate_follow_ups U text'
  /\ generate_sources U text = generate_sources U text'
  /\ calculate_confidence U text question = calculate_confidence U text' question.
Proof.
  intros A A' E.
  assert (L : lower U text = lower U text')
    by (rewrite (@lower_ascii U text A), (@lower_ascii U text' A'); exact E).
  split; [|split].
  - unfold generate_follow_ups. rewrite L. reflexivity.
  - unfold generate_sources. rewrite L. reflexivity.
  - assert (Hlen : length text = length text')
      by (rewrite <- (length_map ascii_lower text), E; apply length_map).
    assert (Hs : structure_count text = structure_count text')
      by (rewrite <- (structure_count_lower text), E; apply structure_count_lower).
    assert (Hd : any (isdigit U) text = any (isdigit U) text')
      by (rewrite <- (any_isdigit_lower U text), E; apply any_isdigit_lower).
    assert (Hk : kenya_mentions U text = kenya_mentions U text')
      by (unfold kenya_mentions; rewrite L; reflexivity).
    destruct text as [|c cs], text' as [|c' cs']; try discriminate Hlen;
      [reflexivity|].
    rewrite !calculate_confidence_score_at, Hlen, Hs, Hd, Hk. reflexivity.
Qed.

Lemma heuristics_ignore_letter_case_witness :
  calculate_confidence ascii_only (lit "## TLCOM and KRA in NAIROBI, 2024")
    (lit "Who funds startups?")
  = calculate_confidence ascii_only (lit "## tlcom and kra in Nairobi, 2024")
      (lit "Who funds startups?").
Proof.
  apply (proj2 (proj2 (@heuristics_ignore_letter_case ascii_only
           (lit "## TLCOM and KRA in NAIROBI, 2024")
           (lit "## tlcom and kra in Nairobi, 2024")
           (lit "Who funds startups?") eq_refl eq_refl eq_refl))).
Defined.

Lemma py_in_trans (a b c : str) :
  py_in a b = true -> py_in b c = true -> py_in a c = true.
Proof.
  intros Hab Hbc.
  apply py_in_spec in Hab. destruct Hab as (l1 & r1 & ->).
  apply py_in_spec in Hbc. destruct Hbc as (l2 & r2 & ->).
  apply py_in_spec. exists (l2 ++ l1), (r1 ++ r2).
  rewrite <- !app_assoc. reflexivity.
Qed.

Lemma sum_1_if_cons (A : Type) (p : A -> bool) (x : A) (xs : list A) :
  sum_1_if p (x :: xs) = (if p x then 1 else 0) + sum_1_if p xs.
Proof. unfold sum_1_if. cbn [filter]. destruct (p x); reflexivity. Qed.

(** X10. Overlapping entries count twice: a text that mentions "kenyan" has
    at least 2 domain terms ("kenya" and "kenyan"), and a text with a "###"
    header has at least 2 structure markers ("##" and "###"). *)
Theorem overlapping_terms_count_twice (U : unicode_data) (content : str) :
  (py_in (lit "kenyan") (lower U content) = true -> 2 <= kenya_mentions U content)
  /\ (py_in (lit "###") content = true -> 2 <= structure_count content).
Proof.
  split; intros H.
  - assert (H' : py_in (lit "kenya") (lower U content) = true)
      by (apply (@py_in_trans _ (lit "kenyan")); [reflexivity | exact H]).
    unfold kenya_mentions, kenya_terms.
    rewrite !sum_1_if_cons.
    change (lower U (lit "kenya")) with (lit "kenya").
    change (lower U (lit "kenyan")) with (lit "kenyan").
    rewrite H, H'. lia.
  - assert (H' : py_in (lit "##") content = true)
      by (apply (@py_in_trans _ (lit "###")); [reflexivity | exact H]).
    unfold structure_count, structure_indicators.
    rewrite !sum_1_if_cons. rewrite H, H'. lia.
Qed.

Ltac split_checklist U content :=
  unfold matched_labels, org_checklist;
  cbn [filter fst existsb]; rewrite ?orb_false_r;
  destruct (py_in (lit "tlcom") (lower U content));
  destruct (py_in (lit "novastar") (lower U content));
  destruct (py_in (lit "ihub") (lower U content));
  destruct (py_in (lit "mest") (lower U content));
  destruct (py_in (lit "cbk") (lower U content)
            || py_in (lit "central bank") (lower U content));
  destruct (py_in (lit "kra") (lower U content)).

(** X11. The sources are the first 4 entries of the base label, the labels
    of the matched checklist entries in checklist order, and the trailing
    label: there are min(4, matches + 2) of them, the last one is the
    trailing "Groq AI Analysis" label exactly when at most 2 organizations
    matched, and no label occurs twice. *)
Theorem generate_sources_checklist (U : unicode_data) (content : str) :
  generate_sources U content
  = firstn 4 (base_label :: matched_labels U content ++ [trailing_label])
  /\ length (generate_sources U content)
     = Nat.min 4 (length (matched_labels U content) + 2)
  /\ (last (generate_sources U content) [] = trailing_label
      <-> length (matched_labels U content) <= 2)
  /\ NoDup (generate_sources U content).
Proof.
  rewrite generate_sources_shape.
  split; [reflexivity|]. split; [|split].
  - rewrite length_firstn. cbn [length]. rewrite length_app. cbn [length]. lia.
  - split_checklist U content; cbn [map snd app firstn last length];
      (split; intros K;
       first [ reflexivity | lia | exfalso; vm_compute in K; discriminate K ]).
  - split_checklist U content; cbn [map snd app firstn];
      match goal with
      | |- NoDup ?l =>
          assert (E : nodup (list_eq_dec N.eq_dec) l = l) by (vm_compute; reflexivity);
          rewrite <- E; apply NoDup_nodup
      end.
Qed.

(** ** The score grid, read *)

Section ScoreOrder.

Import PyFloat Table Grid.

Lemma grids_checked : grids_ok (Zrange 1 1000) = true.
Proof. vm_compute. reflexivity. Qed.

(** *** Reading the checked lists *)

Lemma forallb_nth (A : Type) (p : A -> bool) (l : list A) (d : A) (i : nat) :
  forallb p l = true -> i < length l -> p (nth i l d) = true.
Proof.
  intros H Hi. rewrite forallb_forall in H. apply H, nth_In, Hi.
Qed.

Lemma adjacent_nth (A : Type) (le : A -> A -> bool) (d : A) (l : list A) :
  adjacent le l = true ->
  forall i, S i < length l -> le (nth i l d) (nth (S i) l d) = true.
Proof.
  induction l as [|x l IH]; intros H i Hi; [simpl in Hi; lia|].
  destruct l as [|y l]; [simpl in Hi; lia|].
  cbn [adjacent] in H. apply andb_true_iff in H. destruct H as [Hxy Hl].
  destruct i as [|i]; [exact Hxy|].
  apply (IH Hl i). simpl in Hi |- *. lia.
Qed.

Lemma forallb2_nth (A : Type) (le : A -> A -> bool) (d : A) (l1 : list A) :
  forall l2, forallb2 le l1 l2 = true ->
  forall i, i < length l1 -> le (nth i l1 d) (nth i l2 d) = true.
Proof.
  induction l1 as [|x l1 IH]; intros l2 H i Hi; [simpl in Hi; lia|].
  destruct l2 as [|y l2]; [discriminate H|].
  cbn [forallb2] in H. apply andb_true_iff in H. destruct H as [Hxy Hl].
  destruct i as [|i]; [exact Hxy|].
  apply (IH l2 Hl i). simpl in Hi. lia.
Qed.

Lemma nth_map_Zrange (A : Type) (f : Z -> A) (first count i : nat) (d : A) :
  i < count -> nth i (map f (Zrange first count)) d = f (Z.of_nat (first + i)).
Proof.
  intros Hi. unfold Zrange. rewrite map_map.
  rewrite (nth_indep _ d (f (Z.of_nat 0)))
    by (rewrite length_map, length_seq; exact Hi).
  rewrite (map_nth (fun n => f (Z.of_nat n))). rewrite seq_nth by exact Hi.
  reflexivity.
Qed.

Lemma length_map_Zrange (A : Type) (f : Z -> A) (first count : nat) :
  length (map f (Zrange first count)) = count.
Proof. unfold Zrange. rewrite !length_map. apply length_seq. Qed.

(** The cell of the grid at given counts. *)
Lemma nth_grid (len : Z) (k sc : nat) (dr : list cell) (dc : cell) :
  k < 6 -> sc < 6 ->
  nth sc (nth k (grid len) dr) dc
  = (score_at len (Z.of_nat k) (Z.of_nat sc) false,
     score_at len (Z.of_nat k) (Z.of_nat sc) true).
Proof.
  intros Hk Hs. unfold grid. cbv zeta.
  rewrite nth_map_Zrange by exact Hk. unfold row.
  rewrite nth_map_Zrange by exact Hs. reflexivity.
Qed.

Lemma float_eqb_eq (x y : float) : float_eqb x y = true -> x = y.
Proof.
  destruct x as [s|s| |s m e], y as [s'|s'| |s' m' e']; cbn; try discriminate.
  - intros H. apply Bool.eqb_prop in H. congruence.
  - intros H. apply Bool.eqb_prop in H. congruence.
  - reflexivity.
  - intros H. apply andb_true_iff in H. destruct H as [H He].
    apply andb_true_iff in H. destruct H as [Hs Hm].
    apply Bool.eqb_prop in Hs. apply Pos.eqb_eq in Hm. apply Z.eqb_eq in He.
    congruence.
Qed.

(** What a successful check says, for any list of lengths. *)
Lemma grids_ok_sound (lens : list Z) :
  grids_ok lens = true ->
  forall i, i < length lens ->
    grid_ok (grid (nth i lens 0%Z)) = true
    /\ plain_ok (nth i lens 0%Z) (grid (nth i lens 0%Z)) = true
    /\ (S i < length lens ->
        grid_le (grid (nth i lens 0%Z)) (grid (nth (S i) lens 0%Z)) = true).
Proof.
  unfold grids_ok. cbv zeta. intros G i Hi.
  apply andb_true_iff in G. destruct G as [G1 G2].
  pose proof (@forallb_nth _ _ _ (0%Z, grid 0) i G1) as F.
  rewrite length_map in F. specialize (F Hi).
  rewrite (map_nth (fun len => (len, grid len))) in F. cbn [fst snd] in F.
  apply andb_true_iff in F. destruct F as [F1 F2].
  split; [exact F1 | split; [exact F2|]].
  intros Hlt.
  pose proof (@adjacent_nth _ _ (0%Z, grid 0) _ G2 i) as A.
  rewrite length_map in A. specialize (A Hlt).
  rewrite !(map_nth (fun len => (len, grid len))) in A. exact A.
Qed.

(** What [grid_ok] and [grid_le] say of the cells, for any lists of rows. *)
Lemma grid_ok_sound (g : list (list cell)) (d : cell) :
  grid_ok g = true ->
  forall k sc, k < length g -> sc < length (nth k g []) ->
    cell_ok (nth sc (nth k g []) d) = true
    /\ (S sc < length (nth k g []) ->
        cell_le (nth sc (nth k g []) d) (nth (S sc) (nth k g []) d) = true)
    /\ (S k < length g ->
        cell_le (nth sc (nth k g []) d) (nth sc (nth (S k) g []) d) = true).
Proof.
  unfold grid_ok. intros G k sc Hk Hs.
  apply andb_true_iff in G. destruct G as [G1 G2].
  pose proof (@forallb_nth _ _ _ [] k G1 Hk) as F.
  apply andb_true_iff in F. destruct F as [F1 F2].
  split; [exact (@forallb_nth _ _ _ d sc F1 Hs) | split].
  - intros Hlt. exact (@adjacent_nth _ _ d _ F2 sc Hlt).
  - intros Hlt. pose proof (@adjacent_nth _ _ [] _ G2 k Hlt) as R.
    exact (@forallb2_nth _ _ d _ _ R sc Hs).
Qed.

Lemma grid_le_sound (g g' : list (list cell)) (d : cell) :
  grid_le g g' = true ->
  forall k sc, k < length g -> sc < length (nth k g []) ->
    cell_le (nth sc (nth k g []) d) (nth sc (nth k g' []) d) = true.
Proof.
  intros G k sc Hk Hs.
  pose proof (@forallb2_nth _ _ [] _ _ G k Hk) as R.
  exact (@forallb2_nth _ _ d _ _ R sc Hs).
Qed.

Lemma plain_ok_sound (len : Z) (g : list (list cell)) (d : cell) :
  plain_ok len g = true ->
  fst (nth 0 (nth 0 g []) d) = ratio_score len 1000 f0_3
  /\ leb (ratio_score len 1000 f0_3) f0_3 = true.
Proof.
  unfold plain_ok. destruct g as [|[|[a b] r] g]; try discriminate.
  intros P. apply andb_true_iff in P. destruct P as [P1 P2].
  apply float_eqb_eq in P1. cbn [nth fst]. split; [exact P1|].
  rewrite <- P1. exact P2.
Qed.

Lemma nth_Zrange (first count i : nat) :
  i < count -> nth i (Zrange first count) 0%Z = Z.of_nat (first + i).
Proof.
  intros Hi. unfold Zrange. rewrite (map_nth Z.of_nat _ 0 i : _ = _).
  rewrite seq_nth by exact Hi. reflexivity.
Qed.

Lemma length_Zrange (first count : nat) : length (Zrange first count) = count.
Proof. unfold Zrange. rewrite length_map. apply length_seq. Qed.

Lemma length_grid (l : Z) : length (grid l) = 6.
Proof. unfold grid. cbv zeta. apply length_map_Zrange. Qed.

Lemma length_grid_row (l : Z) (j : nat) :
  j < 6 -> length (nth j (grid l) []) = 6.
Proof.
  intros Hj. unfold grid. cbv zeta. rewrite nth_map_Zrange by exact Hj.
  unfold row. apply length_map_Zrange.
Qed.

Lemma grid_checked_at (n : nat) :
  1 <= n <= 1000 ->
  grid_ok (grid (Z.of_nat n)) = true
  /\ plain_ok (Z.of_nat n) (grid (Z.of_nat n)) = true
  /\ (n < 1000 -> grid_le (grid (Z.of_nat n)) (grid (Z.of_nat (S n))) = true).
Proof.
  intros Hn.
  pose proof (@grids_ok_sound (Zrange 1 1000) grids_checked (n - 1)) as G.
  rewrite length_Zrange in G.
  rewrite !nth_Zrange in G by lia.
  replace (1 + (n - 1)) with n in G by lia.
  destruct (G ltac:(lia)) as (G1 & G2 & G3).
  split; [exact G1 | split; [exact G2|]].
  intros Hlt. rewrite nth_Zrange in G3 by lia.
  replace (1 + S (n - 1)) with (S n) in G3 by lia. apply G3. lia.
Qed.

Section GridFacts.

Variables (n k sc : nat).
Hypothesis Hn : 1 <= n <= 1000.
Hypothesis Hk : k < 6.
Hypothesis Hs : sc < 6.

(** Every score of the grid is positive, and the digit bonus does not lower
    it. *)
Lemma grid_cell_ok :
  ltb f0_0 (score_at (Z.of_nat n) (Z.of_nat k) (Z.of_nat sc) false) = true
  /\ leb (score_at (Z.of_nat n) (Z.of_nat k) (Z.of_nat sc) false)
         (score_at (Z.of_nat n) (Z.of_nat k) (Z.of_nat sc) true) = true.
Proof.
  destruct (@grid_checked_at n Hn) as (G & _ & _).
  destruct (@grid_ok_sound _ (f0_0, f0_0) G k sc) as (C & _ & _).
  - rewrite length_grid. exact Hk.
  - rewrite length_grid_row by exact Hk. exact Hs.
  - rewrite nth_grid in C by assumption. unfold cell_ok in C. cbn [fst snd] in C.
    apply andb_true_iff. exact C.
Qed.

Lemma grid_step_markers :
  S sc < 6 ->
  cell_le (score_at (Z.of_nat n) (Z.of_nat k) (Z.of_nat sc) false,
           score_at (Z.of_nat n) (Z.of_nat k) (Z.of_nat sc) true)
          (score_at (Z.of_nat n) (Z.of_nat k) (Z.of_nat (S sc)) false,
           score_at (Z.of_nat n) (Z.of_nat k) (Z.of_nat (S sc)) true) = true.
Proof.
  intros Hlt. destruct (@grid_checked_at n Hn) as (G & _ & _).
  destruct (@grid_ok_sound _ (f0_0, f0_0) G k sc) as (_ & C & _).
  - rewrite length_grid. exact Hk.
  - rewrite length_grid_row by exact Hk. exact Hs.
  - rewrite length_grid_row, !nth_grid in C by (assumption || lia). apply C, Hlt.
Qed.

Lemma grid_step_mentions :
  S k < 6 ->
  cell_le (score_at (Z.of_nat n) (Z.of_nat k) (Z.of_nat sc) false,
           score_at (Z.of_nat n) (Z.of_nat k) (Z.of_nat sc) true)
          (score_at (Z.of_nat n) (Z.of_nat (S k)) (Z.of_nat sc) false,
           score_at (Z.of_nat n) (Z.of_nat (S k)) (Z.of_nat sc) true) = true.
Proof.
  intros Hlt. destruct (@grid_checked_at n Hn) as (G & _ & _).
  destruct (@grid_ok_sound _ (f0_0, f0_0) G k sc) as (_ & _ & C).
  - rewrite length_grid. exact Hk.
  - rewrite length_grid_row by exact Hk. exact Hs.
  - rewrite length_grid, !nth_grid in C by (assumption || lia). apply C, Hlt.
Qed.

Lemma grid_step_length :
  n < 1000 ->
  cell_le (score_at (Z.of_nat n) (Z.of_nat k) (Z.of_nat sc) false,
           score_at (Z.of_nat n) (Z.of_nat k) (Z.of_nat sc) true)
          (score_at (Z.of_nat (S n)) (Z.of_nat k) (Z.of_nat sc) false,
           score_at (Z.of_nat (S n)) (Z.of_nat k) (Z.of_nat sc) true) = true.
Proof.
  intros Hlt. destruct (@grid_checked_at n Hn) as (_ & _ & G). specialize (G Hlt).
  pose proof (@grid_le_sound _ _ (f0_0, f0_0) G k sc) as C.
  rewrite length_grid, length_grid_row, !nth_grid in C by (assumption || lia).
  apply C; assumption.
Qed.

End GridFacts.

Lemma grid_plain (n : nat) :
  1 <= n <= 1000 ->
  score_at (Z.of_nat n) 0 0 false = ratio_score (Z.of_nat n) 1000 f0_3
  /\ leb (ratio_score (Z.of_nat n) 1000 f0_3) f0_3 = true.
Proof.
  intros Hn. destruct (@grid_checked_at n Hn) as (_ & P & _).
  destruct (@plain_ok_sound _ _ (f0_0, f0_0) P) as [E L].
  rewrite (@nth_grid _ 0 0 [] (f0_0, f0_0)) in E by lia.
  cbn [fst] in E. split; [exact E | exact L].
Qed.

(** ** Order on the scores *)

Lemma unit_float_shape (x : float) :
  unit_float x ->
  (exists s, x = S754_zero s) \/ (exists m e, x = S754_finite false m e).
Proof.
  intros [H0 H1]. destruct x as [s|[|]| |[|] m e]; try discriminate.
  - left. exists s. reflexivity.
  - right. exists m, e. reflexivity.
Qed.

Lemma leb_finite (m1 m2 : positive) (e1 e2 : Z) :
  leb (S754_finite false m1 e1) (S754_finite false m2 e2) = true
  <-> (e1 < e2)%Z \/ (e1 = e2 /\ (m1 <= m2)%positive).
Proof.
  unfold leb, SFleb, SFcompare. rewrite Pos.compare_cont_spec.
  unfold Pos.switch_Eq.
  destruct (Z.compare_spec e1 e2) as [E|E|E];
    destruct (Pos.compare_spec m1 m2) as [M|M|M];
    split; intros H; try reflexivity; try discriminate H; try lia.
Qed.

Lemma leb_refl (x : float) : unit_float x -> leb x x = true.
Proof.
  intros U. destruct (unit_float_shape U) as [[s ->]|(m & e & ->)].
  - reflexivity.
  - apply leb_finite. right. split; [reflexivity | apply Pos.le_refl].
Qed.

Lemma leb_trans (x y z : float) :
  unit_float x -> unit_float y -> unit_float z ->
  leb x y = true -> leb y z = true -> leb x z = true.
Proof.
  intros Ux Uy Uz.
  destruct (unit_float_shape Ux) as [[sx ->]|(mx & ex & ->)];
  destruct (unit_float_shape Uy) as [[sy ->]|(my & ey & ->)];
  destruct (unit_float_shape Uz) as [[sz ->]|(mz & ez & ->)];
    try reflexivity; try discriminate; try (intros _ H; discriminate H).
  rewrite !leb_finite. lia.
Qed.

(** A positive float stays positive under anything not below it. *)
Lemma ltb_zero_leb (x y : float) :
  unit_float y -> ltb f0_0 x = true -> leb x y = true -> ltb f0_0 y = true.
Proof.
  intros Uy Hx Hxy.
  destruct (unit_float_shape Uy) as [[sy ->]|(my & ey & ->)]; [|reflexivity].
  destruct x as [s|[|]| |[|] m e]; try discriminate.
Qed.

Lemma score_at_unit (n k sc : nat) (digit : bool) :
  1 <= n <= 1000 -> k < 6 -> sc < 6 ->
  unit_float (score_at (Z.of_nat n) (Z.of_nat k) (Z.of_nat sc) digit).
Proof.
  intros Hn Hk Hs.
  pose proof (@TableFacts.table_entry (Z.of_nat n) (Z.of_nat k) (Z.of_nat sc) digit
                ltac:(lia) ltac:(lia) ltac:(lia)) as E.
  unfold entry_ok in E. rewrite !andb_true_iff in E. split; tauto.
Qed.

(** A chain of steps that never go down never goes down. *)
Lemma leb_chain (f : nat -> float) (a b : nat) :
  (forall i, a <= i < b -> leb (f i) (f (S i)) = true) ->
  (forall i, a <= i <= b -> unit_float (f i)) ->
  forall j, a <= j <= b -> leb (f a) (f j) = true.
Proof.
  intros Step Unit j. induction j as [|j IH]; intros Hj.
  - replace a with 0 by lia. apply leb_refl, Unit. lia.
  - destruct (Nat.eq_dec a (S j)) as [->|N].
    + apply leb_refl, Unit. lia.
    + apply leb_trans with (y := f j); try (apply Unit; lia).
      * apply IH. lia.
      * apply Step. lia.
Qed.

Lemma cell_le_components (f f' : bool -> float) (digit : bool) :
  cell_le (f false, f true) (f' false, f' true) = true ->
  leb (f digit) (f' digit) = true.
Proof.
  unfold cell_le. cbn [fst snd]. intros H.
  apply andb_true_iff in H. destruct H as [H0 H1].
  destruct digit; assumption.
Qed.

Lemma score_at_mono_length (n n' k sc : nat) (digit : bool) :
  1 <= n <= n' -> n' <= 1000 -> k < 6 -> sc < 6 ->
  leb (score_at (Z.of_nat n) (Z.of_nat k) (Z.of_nat sc) digit)
      (score_at (Z.of_nat n') (Z.of_nat k) (Z.of_nat sc) digit) = true.
Proof.
  intros Hn Hn' Hk Hs.
  apply (@leb_chain
           (fun i => score_at (Z.of_nat i) (Z.of_nat k) (Z.of_nat sc) digit) n n');
    try lia.
  - intros i Hi.
    exact (@cell_le_components
             (score_at (Z.of_nat i) (Z.of_nat k) (Z.of_nat sc))
             (score_at (Z.of_nat (S i)) (Z.of_nat k) (Z.of_nat sc)) digit
             (@grid_step_length i k sc ltac:(lia) Hk Hs ltac:(lia))).
  - intros i Hi. apply score_at_unit; lia.
Qed.

Lemma score_at_mono_mentions (n k k' sc : nat) (digit : bool) :
  1 <= n <= 1000 -> k <= k' -> k' < 6 -> sc < 6 ->
  leb (score_at (Z.of_nat n) (Z.of_nat k) (Z.of_nat sc) digit)
      (score_at (Z.of_nat n) (Z.of_nat k') (Z.of_nat sc) digit) = true.
Proof.
  intros Hn Hk Hk' Hs.
  apply (@leb_chain
           (fun i => score_at (Z.of_nat n) (Z.of_nat i) (Z.of_nat sc) digit) k k');
    try lia.
  - intros i Hi.
    exact (@cell_le_components
             (score_at (Z.of_nat n) (Z.of_nat i) (Z.of_nat sc))
             (score_at (Z.of_nat n) (Z.of_nat (S i)) (Z.of_nat sc)) digit
             (@grid_step_mentions n i sc Hn ltac:(lia) Hs ltac:(lia))).
  - intros i Hi. apply score_at_unit; lia.
Qed.

Lemma score_at_mono_markers (n k sc sc' : nat) (digit : bool) :
  1 <= n <= 1000 -> k < 6 -> sc <= sc' -> sc' < 6 ->
  leb (score_at (Z.of_nat n) (Z.of_nat k) (Z.of_nat sc) digit)
      (score_at (Z.of_nat n) (Z.of_nat k) (Z.of_nat sc') digit) = true.
Proof.
  intros Hn Hk Hs Hs'.
  apply (@leb_chain
           (fun i => score_at (Z.of_nat n) (Z.of_nat k) (Z.of_nat i) digit) sc sc');
    try lia.
  - intros i Hi.
    exact (@cell_le_components
             (score_at (Z.of_nat n) (Z.of_nat k) (Z.of_nat i))
             (score_at (Z.of_nat n) (Z.of_nat k) (Z.of_nat (S i))) digit
             (@grid_step_markers n k i Hn Hk ltac:(lia) ltac:(lia))).
  - intros i Hi. apply score_at_unit; lia.
Qed.

Lemma score_at_mono_digit (n k sc : nat) (digit digit' : bool) :
  1 <= n <= 1000 -> k < 6 -> sc < 6 ->
  (digit = true -> digit' = true) ->
  leb (score_at (Z.of_nat n) (Z.of_nat k) (Z.of_nat sc) digit)
      (score_at (Z.of_nat n) (Z.of_nat k) (Z.of_nat sc) digit') = true.
Proof.
  intros Hn Hk Hs Hd.
  destruct digit, digit'; try (apply leb_refl, score_at_unit; assumption).
  - specialize (Hd eq_refl). discriminate.
  - apply (@grid_cell_ok n k sc Hn Hk Hs).
Qed.

(** Over the table, the score never decreases when the length, a count or
    the digit flag goes up. *)
Lemma score_at_mono (n n' k k' sc sc' : nat) (digit digit' : bool) :
  1 <= n <= n' -> n' <= 1000 -> k <= k' -> k' < 6 -> sc <= sc' -> sc' < 6 ->
  (digit = true -> digit' = true) ->
  leb (score_at (Z.of_nat n) (Z.of_nat k) (Z.of_nat sc) digit)
      (score_at (Z.of_nat n') (Z.of_nat k') (Z.of_nat sc') digit') = true.
Proof.
  intros Hn Hn' Hk Hk' Hs Hs' Hd.
  apply leb_trans
    with (y := score_at (Z.of_nat n') (Z.of_nat k) (Z.of_nat sc) digit);
    try (apply score_at_unit; lia).
  { apply score_at_mono_length; lia. }
  apply leb_trans
    with (y := score_at (Z.of_nat n') (Z.of_nat k') (Z.of_nat sc) digit);
    try (apply score_at_unit; lia).
  { apply score_at_mono_mentions; lia. }
  apply leb_trans
    with (y := score_at (Z.of_nat n') (Z.of_nat k') (Z.of_nat sc') digit);
    try (apply score_at_unit; lia).
  { apply score_at_mono_markers; lia. }
  apply score_at_mono_digit; (lia || assumption).
Qed.

(** The score of a non-empty text, at its saturated length and counts. *)
Lemma calculate_confidence_saturated (U : unicode_data) (content question : str) :
  content <> [] ->
  calculate_confidence U content question
  = score_at (Z.of_nat (Nat.min (length content) 1000))
             (Z.of_nat (Nat.min (kenya_mentions U content) 5))
             (Z.of_nat (Nat.min (structure_count content) 5))
             (any (isdigit U) content).
Proof.
  destruct content as [|c cs]; [congruence|]. intros _.
  rewrite calculate_confidence_score_at.
  pose proof (kenya_mentions_le U (c :: cs)).
  pose proof (structure_count_le (c :: cs)).
  rewrite TableFacts.score_at_saturates by lia.
  rewrite !Nat2Z.inj_min. reflexivity.
Qed.

Lemma filter_length_mono (A : Type) (p p' : A -> bool) (l : list A) :
  (forall x, In x l -> p x = true -> p' x = true) ->
  length (filter p l) <= length (filter p' l).
Proof.
  induction l as [|x l IH]; intros H; [reflexivity|].
  cbn [filter].
  assert (IH' : length (filter p l) <= length (filter p' l))
    by (apply IH; intros y Hy; apply H; right; exact Hy).
  destruct (p x) eqn:Px.
  - rewrite (H x (or_introl eq_refl) Px). cbn [length]. lia.
  - destruct (p' x); cbn [length]; lia.
Qed.

Lemma py_in_app_more (t a s b : str) :
  py_in t s = true -> py_in t (a ++ s ++ b) = true.
Proof.
  intros H. apply py_in_spec in H. destruct H as (l & r & ->).
  apply py_in_spec. exists (a ++ l), (r ++ b). rewrite <- !app_assoc. reflexivity.
Qed.

End ScoreOrder.

(** ** The confidence as a function of the features *)

Lemma calculate_confidence_order
    (U : unicode_data) (content content' question question' : str) :
  length content <= length content' ->
  kenya_mentions U content <= kenya_mentions U content' ->
  structure_count content <= structure_count content' ->
  (any (isdigit U) content = true -> any (isdigit U) content' = true) ->
  PyFloat.leb (calculate_confidence U content question)
              (calculate_confidence U content' question') = true.
Proof.
  intros Hl Hk Hs Hd.
  destruct content as [|c cs].
  - apply calculate_confidence_bounds.
  - assert (N : c :: cs <> []) by discriminate.
    assert (N' : content' <> [])
      by (destruct content'; [simpl in Hl; lia | discriminate]).
    rewrite (@calculate_confidence_saturated U (c :: cs) question N).
    rewrite (@calculate_confidence_saturated U content' question' N').
    apply score_at_mono; try lia; try exact Hd.
    cbn [length] in *. lia.
Qed.

(** X12. The confidence never decreases with the features it is computed
    from: a text at least as long, with at least as many domain terms and
    structure markers, and with a digit if the other has one, scores at
    least as much. *)
Theorem calculate_confidence_monotone
    (U : unicode_data) (content content' question question' : str) :
  length content <= length content' ->
  kenya_mentions U content <= kenya_mentions U content' ->
  structure_count content <= structure_count content' ->
  (any (isdigit U) content = true -> any (isdigit U) content' = true) ->
  PyFloat.leb (calculate_confidence U content question)
              (calculate_confidence U content' question') = true.
Proof.
  intros Hl Hk Hs Hd.
  exact (@calculate_confidence_order U content content' question question'
           Hl Hk Hs Hd).
Qed.

Lemma calculate_confidence_monotone_witness :
  PyFloat.leb
    (calculate_confidence ascii_only (lit "Kenya Kenya ## 1") (lit "q"))
    (calculate_confidence ascii_only sample_answer (lit "q")) = true.
Proof.
  apply calculate_confidence_monotone.
  - apply Nat.leb_le. vm_compute. reflexivity.
  - apply Nat.leb_le. vm_compute. reflexivity.
  - apply Nat.leb_le. vm_compute. reflexivity.
  - intros _. vm_compute. reflexivity.
Defined.

(** X13. The confidence is 0.0 for the empty text only. *)
Theorem calculate_confidence_zero_iff_empty
    (U : unicode_data) (content question : str) :
  calculate_confidence U content question = PyFloat.f0_0 <-> content = [].
Proof.
  split; [|intros ->; reflexivity].
  intros Z. destruct content as [|c cs]; [reflexivity|exfalso].
  assert (N : c :: cs <> []) by discriminate.
  rewrite (@calculate_confidence_saturated U (c :: cs) question N) in Z.
  set (n := Nat.min (length (c :: cs)) 1000) in Z.
  set (k := Nat.min (kenya_mentions U (c :: cs)) 5) in Z.
  set (sc := Nat.min (structure_count (c :: cs)) 5) in Z.
  assert (Hn : 1 <= n <= 1000) by (unfold n; cbn [length]; lia).
  assert (Hk : k < 6) by (unfold k; lia).
  assert (Hs : sc < 6) by (unfold sc; lia).
  destruct (@grid_cell_ok n k sc Hn Hk Hs) as [P D].
  assert (P' : PyFloat.ltb PyFloat.f0_0
                 (Table.score_at (Z.of_nat n) (Z.of_nat k) (Z.of_nat sc)
                    (any (isdigit U) (c :: cs))) = true).
  { destruct (any (isdigit U) (c :: cs)); [|exact P].
    apply (@ltb_zero_leb _ _ (@score_at_unit n k sc true Hn Hk Hs) P D). }
  rewrite Z in P'. discriminate P'.
Qed.

(** X14. A text without domain term, structure marker or digit scores
    exactly its length score, at most 0.3. *)
Theorem calculate_confidence_plain_text
    (U : unicode_data) (content question : str) :
  kenya_mentions U content = 0 ->
  structure_count content = 0 ->
  any (isdigit U) content = false ->
  calculate_confidence U content question = length_score content
  /\ PyFloat.leb (calculate_confidence U content question) PyFloat.f0_3 = true.
Proof.
  intros Hk Hs Hd.
  assert (E : calculate_confidence U content question = length_score content).
  { destruct content as [|c cs]; [reflexivity|].
    assert (N : c :: cs <> []) by discriminate.
    rewrite (@calculate_confidence_saturated U (c :: cs) question N).
    rewrite Hk, Hs, Hd. change (Z.of_nat (Nat.min 0 5)) with 0%Z.
    destruct (@grid_plain (Nat.min (length (c :: cs)) 1000)
                ltac:(cbn [length]; lia)) as [P _].
    rewrite P. rewrite Nat2Z.inj_min.
    change (Z.of_nat 1000) with 1000%Z.
    rewrite <- TableFacts.ratio_score_len_min. reflexivity. }
  split; [exact E|]. rewrite E.
  destruct content as [|c cs]; [reflexivity|].
  unfold length_score.
  change (PyFloat.mul
            (PyFloat.py_min (PyFloat.truediv (Z.of_nat (length (c :: cs))) 1000)
               PyFloat.f1_0) PyFloat.f0_3)
    with (Table.ratio_score (Z.of_nat (length (c :: cs))) 1000 PyFloat.f0_3).
  rewrite TableFacts.ratio_score_len_min.
  change 1000%Z with (Z.of_nat 1000). rewrite <- Nat2Z.inj_min.
  apply grid_plain. cbn [length]. lia.
Qed.

Lemma calculate_confidence_plain_text_witness :
  calculate_confidence ascii_only (lit "Ask a mentor for advice.") (lit "q")
  = length_score (lit "Ask a mentor for advice.").
Proof.
  apply (proj1 (@calculate_confidence_plain_text ascii_only
                  (lit "Ask a mentor for advice.") (lit "q")
                  eq_refl eq_refl eq_refl)).
Defined.

(** X15. Putting ASCII text before and after an ASCII answer never lowers
    its confidence. *)
Theorem calculate_confidence_embedding
    (U : unicode_data) (before content after question : str) :
  forallb is_ascii (before ++ content ++ after) = true ->
  PyFloat.leb (calculate_confidence U content question)
              (calculate_confidence U (before ++ content ++ after) question)
  = true.
Proof.
  intros A.
  assert (Ac : forallb is_ascii content = true).
  { rewrite !forallb_app in A. apply andb_true_iff in A. destruct A as [_ A].
    apply andb_true_iff in A. tauto. }
  assert (L : lower U (before ++ content ++ after)
              = map ascii_lower before ++ lower U content ++ map ascii_lower after).
  { rewrite (@lower_ascii U _ A), (@lower_ascii U _ Ac), !map_app. reflexivity. }
  apply calculate_confidence_order.
  - rewrite !length_app. lia.
  - unfold kenya_mentions, sum_1_if. apply filter_length_mono.
    intros t _ H. rewrite L. apply py_in_app_more, H.
  - unfold structure_count, sum_1_if. apply filter_length_mono.
    intros t _ H. apply py_in_app_more, H.
  - unfold any. rewrite !existsb_app. intros ->.
    rewrite orb_true_l, orb_true_r. reflexivity.
Qed.

Lemma calculate_confidence_embedding_witness :
  PyFloat.leb
    (calculate_confidence ascii_only (lit "Kenya") (lit "q"))
    (calculate_confidence ascii_only (lit "## " ++ lit "Kenya" ++ lit " 2024") (lit "q"))
  = true.
Proof.
  apply calculate_confidence_embedding. vm_compute. reflexivity.
Defined.
